(** * prepare_resources.py: resource merging, identifier-table generation
      and the arguments of the staleness gate

    A shallow embedding of [src/android/gyp/prepare_resources.py].  The
    script orchestrates helpers of [util/] (resource_utils, build_utils,
    manifest_utils, md5_check) and the external [aapt] tool; those are taken
    as parameters ([Externals]), the script's own control flow, list and
    dictionary manipulation are embedded as they are written. *)

From stdpp Require Import gmap strings list sorting pretty.
From Stdlib Require Import Ascii.

(** ** Python strings and paths *)

Module Py.

(** [s.startswith(pre)] *)
Definition startswith (s pre : string) : bool := String.prefix pre s.

(** [s.endswith(suf)] *)
Definition endswith (s suf : string) : bool :=
  String.prefix (String.rev suf) (String.rev s).

(** [posixpath.join(a, b)] for two components. *)
Definition join (a b : string) : string :=
  if startswith b "/" then b
  else if bool_decide (a = "") || endswith a "/" then a +:+ b
  else a +:+ "/" +:+ b.

(** [posixpath.basename(p)]: what follows the last slash. *)
Fixpoint basename_from (cur : string) (p : string) : string :=
  match p with
  | "" => String.rev cur
  | String c r =>
      if Ascii.eqb c "/" then basename_from "" r
      else basename_from (String c cur) r
  end.
Definition basename (p : string) : string := basename_from "" p.

(** ['{}'.format(n)] for a non-negative integer: its decimal numeral. *)
Definition format_int (n : nat) : string := pretty n.

(** Values that end up in the heterogeneous [input_strings] list. *)
Inductive value :=
| Str (s : string)
| None_
| Bool (b : bool).

Global Instance value_eq_dec : EqDecision value.
Proof. solve_decision. Defined.

Definition of_opt (o : option string) : value :=
  match o with Some s => Str s | None => None_ end.

(** Truth value of an optional string: [None] and [''] are false. *)
Definition truthy (o : option string) : bool :=
  match o with
  | Some s => negb (bool_decide (s = ""))
  | None => false
  end.

(** The string held by an option known to be truthy. *)
Definition the (o : option string) : string := default "" o.

(** [[x for x in l if x]] *)
Definition keep_truthy (l : list (option string)) : list string :=
  omap (fun o => if truthy o then o else None) l.

(** [sorted(l)] on byte strings: ascending in the lexicographic order of
    the character codes. *)
Definition sorted (l : list string) : list string := merge_sort String.le l.

End Py.

(** ** The options object

    The fields read by the script, after [_ParseArgs]: the attributes set by
    the arguments declared in the script and those declared by
    [resource_utils.ResourceArgsParser] and read here. *)

Record Options := {
  aapt_path : string;
  res_sources_path : string;
  shared_resources : bool;
  custom_package : option string;
  android_manifest : option string;
  resource_zip_out : option string;
  srcjar_out : option string;
  r_text_out : option string;
  strip_drawables : bool;
  (* declared by resource_utils.ResourceArgsParser *)
  include_resources : list string;
  dependencies_res_zips : list string;
  extra_res_packages : list string;
  extra_r_text_files : list string;
  r_text_in : option string;
  (* computed by _ParseArgs *)
  sources : list string;
  resource_dirs : list string;
}.

(** [resource_utils.RJavaBuildOptions]: the three switches the script sets. *)
Record RJavaBuildOptions := {
  export_all_resources : bool;
  export_all_styleables : bool;
  generate_on_resources_loaded : bool;
}.

Definition RJavaBuildOptions_new : RJavaBuildOptions :=
  {| export_all_resources := false; export_all_styleables := false;
     generate_on_resources_loaded := false |}.
Definition ExportAllResources (o : RJavaBuildOptions) : RJavaBuildOptions :=
  {| export_all_resources := true;
     export_all_styleables := export_all_styleables o;
     generate_on_resources_loaded := generate_on_resources_loaded o |}.
Definition ExportAllStyleables (o : RJavaBuildOptions) : RJavaBuildOptions :=
  {| export_all_resources := export_all_resources o;
     export_all_styleables := true;
     generate_on_resources_loaded := generate_on_resources_loaded o |}.
Definition GenerateOnResourcesLoaded (o : RJavaBuildOptions) : RJavaBuildOptions :=
  {| export_all_resources := export_all_resources o;
     export_all_styleables := export_all_styleables o;
     generate_on_resources_loaded := true |}.

(** The temporary locations handed out by [resource_utils.BuildContext];
    their removal when the [with] block is left is not part of the model. *)
Record BuildContext := {
  deps_dir : string;
  gen_dir : string;
  r_txt_path : string;
  srcjar_dir : string;
}.

(** ** The world outside the script

    Files are a finite map from paths to contents.  Every call that leaves
    the script is recorded, with its arguments, in the order it is made. *)

Abbreviation FS := (gmap string string).

Inductive Call :=
| StderrWrite (s : string)
| ExtractDeps (zips : list string) (dest : string)
| CheckOutput (cmd : list string)
| Touch (path : string)
| CopyFile (src dst : string)
| ParseManifest (path : string)
| CreateRJavaFiles (srcjar_dir package r_txt : string)
    (extra_res_packages extra_r_text_files : list string)
    (rjava_build_options : RJavaBuildOptions) (srcjar_out : string)
| ZipDir (output base_dir : string)
| CreateResourceInfoFile (files : gmap string string) (zip_path : string)
| DoZip (files : gmap string string) (zip_path comment : string).

Global Instance RJavaBuildOptions_eq_dec : EqDecision RJavaBuildOptions.
Proof. solve_decision. Defined.
Global Instance Call_eq_dec : EqDecision Call.
Proof. solve_decision. Defined.

(** What is not in the script: constants and helpers of [util/], the Python
    library's [os.path.relpath], the [aapt] tool, and what the operating
    system decides about a copy.  The directory walkers read the resource
    directories, which the script never writes.  Apart from aapt and the
    copy, a helper is taken to return: a failure inside one is outside the
    model. *)
Record Externals := {
  AAPT_IGNORE_PATTERN : string;
  EMPTY_ANDROID_MANIFEST_PATH : string;
  MULTIPLE_RES_MAGIC_STRING : string;
  (* resource_utils.IterResourceFilesInDirectories(directories, ignore_pattern):
     the (path, archive_path) pairs it yields; the pattern is None where the
     caller leaves it to the helper's default *)
  IterResourceFilesInDirectories :
    list string -> option string -> list (string * string);
  (* build_utils.FindInDirectory(directory, filename_filter) *)
  FindInDirectory : string -> string -> list string;
  (* os.path.relpath(path, start) *)
  relpath : string -> string -> string;
  (* resource_utils.ExtractDeps: the subdirectories, and the files written *)
  run_ExtractDeps : list string -> string -> FS -> list string * FS;
  (* build_utils.CheckOutput on the aapt command: None when aapt exits with
     a non-zero status *)
  run_aapt : list string -> FS -> option FS;
  (* manifest_utils.GetPackage of manifest_utils.ParseManifest(path) *)
  run_GetPackage : string -> FS -> option string;
  run_CreateRJavaFiles :
    string -> string -> string -> list string -> list string ->
    RJavaBuildOptions -> string -> FS -> FS;
  run_ZipDir : string -> string -> FS -> FS;
  run_CreateResourceInfoFile : gmap string string -> string -> FS -> FS;
  run_DoZip : gmap string string -> string -> string -> FS -> FS;
  (* what stops shutil.copyfile(src, dst) once src is there, as the operating
     system has it: "shutil.Error" when os.path.samefile(src, dst),
     "SpecialFileError" for a named pipe, "IOError" when dst cannot be opened
     for writing; None when nothing does *)
  copy_obstacle : string -> string -> FS -> option string;
}.

(** ** A monad for the script's effects: files, calls made, failure *)

Inductive Failure :=
| SysExit (status : nat)      (* sys.exit(status) *)
| Raised (what : string).     (* an exception nothing catches *)

Inductive Result (A : Type) :=
| Returned (a : A)
| Failed (e : Failure).
Arguments Returned {A} a.
Arguments Failed {A} e.

Record Outcome (A : Type) := {
  calls : list Call;
  files : FS;
  result : Result A;
}.
Arguments calls {A} _.
Arguments files {A} _.
Arguments result {A} _.

Definition M (A : Type) : Type := FS -> Outcome A.

Global Instance M_ret : MRet M := fun A (a : A) fs =>
  {| calls := []; files := fs; result := Returned a |}.

Global Instance M_bind : MBind M := fun A B (k : A -> M B) (m : M A) fs =>
  let o := m fs in
  match result o with
  | Returned a =>
      let o' := k a (files o) in
      {| calls := calls o ++ calls o'; files := files o'; result := result o' |}
  | Failed e => {| calls := calls o; files := files o; result := Failed e |}
  end.

Definition call (c : Call) (f : FS -> FS) : M unit :=
  fun fs => {| calls := [c]; files := f fs; result := Returned tt |}.

Definition fail {A} (e : Failure) : M A :=
  fun fs => {| calls := []; files := fs; result := Failed e |}.

Definition when (b : bool) (m : M unit) : M unit := if b then m else mret tt.

(** The process exit status of a run: 0 on return, the argument of
    [sys.exit], 1 for an uncaught exception. *)
Definition exit_status {A} (o : Outcome A) : nat :=
  match result o with
  | Returned _ => 0
  | Failed (SysExit n) => n
  | Failed (Raised _) => 1
  end.

(** Library calls with a known effect on files. *)

(** [os.path.exists(path)] *)
Definition path_exists (path : string) : M bool :=
  fun fs => {| calls := []; files := fs;
               result := Returned (bool_decide (is_Some (fs !! path))) |}.

(** [shutil.copyfile(src, dst)]: opening a source that is not there raises
    [IOError]; for a source that is there the operating system decides
    whether the copy goes through (the same file under two names, a
    destination that cannot be opened); a copy that goes through gives the
    destination the contents of the source. *)
Definition copyfile (E : Externals) (src dst : string) : M unit :=
  fun fs =>
    match fs !! src with
    | Some data =>
        match copy_obstacle E src dst fs with
        | Some what => {| calls := [CopyFile src dst]; files := fs;
                          result := Failed (Raised what) |}
        | None => {| calls := [CopyFile src dst]; files := <[dst := data]> fs;
                     result := Returned tt |}
        end
    | None => {| calls := [CopyFile src dst]; files := fs;
                 result := Failed (Raised "IOError") |}
    end.

(** Modelled from the spec: [build_utils.Touch] (not in src) makes sure the
    file exists: "the generator must synthesize an empty placeholder"; a file
    that is there keeps its contents. *)
Definition touch (path : string) : M unit :=
  call (Touch path)
       (fun fs => match fs !! path with Some _ => fs | None => <[path := ""]> fs end).

(** [for x in l: body(x)] *)
Fixpoint for_each {A} (l : list A) (body : A -> M unit) : M unit :=
  match l with
  | [] => mret tt
  | x :: l => body x;; for_each l body
  end.

(** [enumerate(l)] *)
Fixpoint enumerate_from {A} (i : nat) (l : list A) : list (nat * A) :=
  match l with
  | [] => []
  | x :: l => (i, x) :: enumerate_from (S i) l
  end.
Definition enumerate {A} (l : list A) : list (nat * A) := enumerate_from 0 l.

Definition newline : string := String (ascii_of_nat 10) "".

(** The [_AAPT_IGNORE_PATTERN] of the script (which the functions below do
    not read: they take [resource_utils.AAPT_IGNORE_PATTERN]). *)
Definition _AAPT_IGNORE_PATTERN : string :=
  String.concat ":" ["*OWNERS"; "*.py"; "*.pyc"; "*~"; ".*"; "*.d.stamp"].

Definition missing_files_header : string :=
  "Error: Found files not listed in the sources list of "
  +:+ "the BUILD.gn target:" +:+ newline.

(** ['{}_{}/{}'.format(index, resource_dir_name, archive_path)] *)
Definition format_archive_path (index : nat) (resource_dir_name archive_path : string)
  : string :=
  Py.format_int index +:+ "_" +:+ resource_dir_name +:+ "/" +:+ archive_path.

(** The arguments [main] hands to [md5_check.CallAndWriteDepfileIfStale]. *)
Record GateArgs := {
  input_paths : list string;
  input_strings : list Py.value;
  output_paths : list string;
  depfile_deps : list string;
}.

(** ** The script *)

Section Script.
Context (E : Externals).

(** *** [_CheckAllFilesListed] *)

Definition missing_files (resource_files resource_dirs : list string) : list string :=
  let resource_files : gset string := list_to_set resource_files in
  foldl (fun missing_files '(path, _) =>
           if bool_decide (path ∉ resource_files)
           then missing_files ++ [path] else missing_files)
        [] (IterResourceFilesInDirectories E resource_dirs None).

Definition _CheckAllFilesListed (resource_files resource_dirs : list string)
  : M unit :=
  let missing_files := missing_files resource_files resource_dirs in
  if bool_decide (missing_files ≠ []) then
    call (StderrWrite missing_files_header) id;;
    for_each missing_files
      (fun path => call (StderrWrite (path +:+ newline)) id);;
    fail (SysExit 1)
  else mret tt.

(** *** [_ZipResources] *)

(** One pass of the inner loop body: both dictionaries after the entry. *)
Definition zip_entry (index : nat) (resource_dir : string)
    (dicts : gmap string string * gmap string string)
    (entry : string * string) : gmap string string * gmap string string :=
  let '(files_to_zip, files_to_zip_without_generated) := dicts in
  let '(path, archive_path) := entry in
  let resource_dir_name := Py.basename resource_dir in
  let archive_path := format_archive_path index resource_dir_name archive_path in
  let files_to_zip_without_generated :=
    if negb (Py.startswith path "/tmp")
    then <[archive_path := path]> files_to_zip_without_generated
    else files_to_zip_without_generated in
  (<[archive_path := path]> files_to_zip, files_to_zip_without_generated).

(** The two loops: [(files_to_zip, files_to_zip_without_generated)]. *)
Definition zip_dicts (resource_dirs : list string) (ignore_pattern : string)
  : gmap string string * gmap string string :=
  foldl (fun dicts '(index, resource_dir) =>
           foldl (zip_entry index resource_dir) dicts
             (IterResourceFilesInDirectories E [resource_dir] (Some ignore_pattern)))
        (∅, ∅) (enumerate resource_dirs).

Definition _ZipResources (resource_dirs : list string)
    (zip_path ignore_pattern : string) : M unit :=
  let '(files_to_zip, files_to_zip_without_generated) :=
    zip_dicts resource_dirs ignore_pattern in
  call (CreateResourceInfoFile files_to_zip_without_generated zip_path)
       (run_CreateResourceInfoFile E files_to_zip_without_generated zip_path);;
  call (DoZip files_to_zip zip_path (MULTIPLE_RES_MAGIC_STRING E))
       (run_DoZip E files_to_zip zip_path (MULTIPLE_RES_MAGIC_STRING E)).

(** *** [_GenerateRTxt] *)

Definition package_command (options : Options) (dep_subdirs : list string)
    (gen_dir : string) : list string :=
  let package_command :=
    [ aapt_path options; "package"; "-m"; "-M";
      EMPTY_ANDROID_MANIFEST_PATH E; "--no-crunch"; "--auto-add-overlay";
      "--no-version-vectors" ] in
  let package_command :=
    foldl (fun cmd j => cmd ++ ["-I"; j]) package_command
          (include_resources options) in
  let ignore_pattern := AAPT_IGNORE_PATTERN E in
  let ignore_pattern :=
    if strip_drawables options then ignore_pattern +:+ ":*drawable*"
    else ignore_pattern in
  let package_command :=
    package_command ++
    [ "--output-text-symbols"; gen_dir; "-J"; gen_dir; "--ignore-assets";
      ignore_pattern ] in
  let package_command :=
    foldl (fun cmd d => cmd ++ ["-S"; d]) package_command dep_subdirs in
  let package_command :=
    foldl (fun cmd d => cmd ++ ["-S"; d]) package_command
          (resource_dirs options) in
  package_command.

(** [build_utils.CheckOutput(cmd)]: a non-zero exit status raises. *)
Definition check_output (cmd : list string) : M unit :=
  fun fs =>
    match run_aapt E cmd fs with
    | Some fs' => {| calls := [CheckOutput cmd]; files := fs'; result := Returned tt |}
    | None => {| calls := [CheckOutput cmd]; files := fs;
                 result := Failed (Raised "CalledProcessError") |}
    end.

Definition _GenerateRTxt (options : Options) (dep_subdirs : list string)
    (gen_dir : string) : M unit :=
  check_output (package_command options dep_subdirs gen_dir).

(** *** [_GenerateResourcesZip] *)

Definition _GenerateResourcesZip (output_resource_zip : string)
    (input_resource_dirs : list string) (strip_drawables : bool) : M unit :=
  let ignore_pattern := AAPT_IGNORE_PATTERN E in
  let ignore_pattern :=
    if strip_drawables then ignore_pattern +:+ ":*drawable*" else ignore_pattern in
  _ZipResources input_resource_dirs output_resource_zip ignore_pattern.

(** *** [_OnStaleMd5] *)

Definition extract_deps (zips : list string) (dest : string) : M (list string) :=
  fun fs =>
    let '(dep_subdirs, fs') := run_ExtractDeps E zips dest fs in
    {| calls := [ExtractDeps zips dest]; files := fs'; result := Returned dep_subdirs |}.

Definition get_package (manifest : string) : M (option string) :=
  fun fs => {| calls := [ParseManifest manifest]; files := fs;
               result := Returned (run_GetPackage E manifest fs) |}.

(** Lines 207-220: the path of the identifier table. *)
Definition identifier_table (options : Options) (build : BuildContext) : M string :=
  if Py.truthy (r_text_in options) then
    mret (Py.the (r_text_in options))
  else
    dep_subdirs ← extract_deps (dependencies_res_zips options) (deps_dir build);
    _GenerateRTxt options dep_subdirs (gen_dir build);;
    b ← path_exists (r_txt_path build);
    when (negb b) (touch (r_txt_path build));;
    mret (r_txt_path build).

(** Lines 225-250: the generated sources and their archive. *)
Definition source_archive (options : Options) (build : BuildContext)
    (r_txt_path : string) : M unit :=
  when (Py.truthy (srcjar_out options)) (
    let package := custom_package options in
    package ←
      (if negb (Py.truthy package) && Py.truthy (android_manifest options)
       then get_package (Py.the (android_manifest options))
       else mret package);
    when (Py.truthy package) (
      let rjava_build_options := RJavaBuildOptions_new in
      let rjava_build_options := ExportAllResources rjava_build_options in
      let rjava_build_options := ExportAllStyleables rjava_build_options in
      let rjava_build_options :=
        if shared_resources options
        then GenerateOnResourcesLoaded rjava_build_options
        else rjava_build_options in
      call (CreateRJavaFiles (srcjar_dir build) (Py.the package) r_txt_path
              (extra_res_packages options) (extra_r_text_files options)
              rjava_build_options (Py.the (srcjar_out options)))
           (run_CreateRJavaFiles E (srcjar_dir build) (Py.the package) r_txt_path
              (extra_res_packages options) (extra_r_text_files options)
              rjava_build_options (Py.the (srcjar_out options))));;
    call (ZipDir (Py.the (srcjar_out options)) (srcjar_dir build))
         (run_ZipDir E (Py.the (srcjar_out options)) (srcjar_dir build))).

Definition _OnStaleMd5 (options : Options) (build : BuildContext) : M unit :=
  when (bool_decide (sources options ≠ []))
    (_CheckAllFilesListed (sources options) (resource_dirs options));;
  r_txt_path ← identifier_table options build;
  when (Py.truthy (r_text_out options))
    (copyfile E r_txt_path (Py.the (r_text_out options)));;
  source_archive options build r_txt_path;;
  when (Py.truthy (resource_zip_out options))
    (_GenerateResourcesZip (Py.the (resource_zip_out options))
       (resource_dirs options) (strip_drawables options)).

(** *** [main], from the parsed options to the call of the staleness gate *)

(** The body of the loop over the resource files of one directory. *)
Definition list_resource_file (resource_dir : string)
    (st : list string * list string * list string) (resource_file : string)
  : list string * list string * list string :=
  let '(input_paths, depfile_deps, resource_names) := st in
  let '(input_paths, depfile_deps) :=
    if negb (Py.endswith resource_file (Py.join "empty" ".keep"))
    then (input_paths ++ [resource_file], depfile_deps ++ [resource_file])
    else (input_paths, depfile_deps) in
  (input_paths, depfile_deps,
   resource_names ++ [relpath E resource_file resource_dir]).

Definition main (options : Options) : GateArgs :=
  let possible_output_paths :=
    [ resource_zip_out options; r_text_out options; srcjar_out options ] in
  let output_paths := Py.keep_truthy possible_output_paths in
  let input_strings :=
    (Py.Str <$> extra_res_packages options) ++
    [ Py.of_opt (custom_package options);
      Py.Bool (shared_resources options);
      Py.Bool (strip_drawables options) ] in
  let possible_input_paths :=
    [ Some (aapt_path options); android_manifest options ] in
  let possible_input_paths :=
    possible_input_paths ++ (Some <$> include_resources options) in
  let input_paths := Py.keep_truthy possible_input_paths in
  let input_paths := input_paths ++ dependencies_res_zips options in
  let input_paths := input_paths ++ extra_r_text_files options in
  let depfile_deps := [] in
  let resource_names := [] in
  let '(input_paths, depfile_deps, resource_names) :=
    foldl (fun st resource_dir =>
             foldl (list_resource_file resource_dir) st
                   (FindInDirectory E resource_dir "*"))
          (input_paths, depfile_deps, resource_names)
          (resource_dirs options) in
  let input_strings := input_strings ++ (Py.Str <$> Py.sorted resource_names) in
  {| input_paths := input_paths; input_strings := input_strings;
     output_paths := output_paths; depfile_deps := depfile_deps |}.

End Script.

(** ** Vocabulary of the statements *)

(** The [(resource_dir, resource_file)] pairs the loop of [main] visits. *)
Definition resource_files (E : Externals) (options : Options)
  : list (string * string) :=
  resource_dir ← resource_dirs options;
  resource_file ← FindInDirectory E resource_dir "*";
  [(resource_dir, resource_file)].

(** Their names relative to the directory they were found in. *)
Definition resource_names (E : Externals) (options : Options) : list string :=
  (fun '(resource_dir, resource_file) => relpath E resource_file resource_dir)
    <$> resource_files E options.

Definition is_empty_keep (resource_file : string) : bool :=
  Py.endswith resource_file (Py.join "empty" ".keep").

(** [input_paths] and [input_strings] as they are before the loop. *)
Definition option_paths (options : Options) : list string :=
  Py.keep_truthy
    ([Some (aapt_path options); android_manifest options]
       ++ (Some <$> include_resources options))
  ++ dependencies_res_zips options ++ extra_r_text_files options.

Definition option_strings (options : Options) : list Py.value :=
  (Py.Str <$> extra_res_packages options) ++
  [ Py.of_opt (custom_package options);
    Py.Bool (shared_resources options);
    Py.Bool (strip_drawables options) ].

(** The same options with another [--r-text-in]. *)
Definition with_r_text_in (options : Options) (r : option string) : Options :=
  {| aapt_path := aapt_path options;
     res_sources_path := res_sources_path options;
     shared_resources := shared_resources options;
     custom_package := custom_package options;
     android_manifest := android_manifest options;
     resource_zip_out := resource_zip_out options;
     srcjar_out := srcjar_out options;
     r_text_out := r_text_out options;
     strip_drawables := strip_drawables options;
     include_resources := include_resources options;
     dependencies_res_zips := dependencies_res_zips options;
     extra_res_packages := extra_res_packages options;
     extra_r_text_files := extra_r_text_files options;
     r_text_in := r;
     sources := sources options;
     resource_dirs := resource_dirs options |}.

(** The [(archive_path, path)] pairs in the order the loops of
    [_ZipResources] store them. *)
Definition zip_entries (E : Externals) (resource_dirs : list string)
    (ignore_pattern : string) : list (string * string) :=
  '(index, resource_dir) ← enumerate resource_dirs;
  (fun '(path, archive_path) =>
     (format_archive_path index (Py.basename resource_dir) archive_path, path))
    <$> IterResourceFilesInDirectories E [resource_dir] (Some ignore_pattern).

(** The walker names no file of one directory twice: an archive path is the
    file's path below the directory. *)
Definition walker_names_once (E : Externals) (ignore_pattern : string) : Prop :=
  forall resource_dir,
    NoDup (IterResourceFilesInDirectories E [resource_dir] (Some ignore_pattern)).*2.

(** An entry whose source path is not below [/tmp]. *)
Definition from_sources (kv : string * string) : Prop :=
  Py.startswith kv.2 "/tmp" = false.

(** Every call of a computation satisfies [P]. *)
Definition calls_satisfy {A} (P : Call -> Prop) (o : Outcome A) : Prop :=
  Forall P (calls o).

(** Modelled from the spec: [build_utils.DoZip] (not in src) stores each
    source file under its archive path, so an entry holds the contents of
    the file it was taken from. *)
Definition archive_contents (fs : FS) (files_to_zip : gmap string string)
  : gmap string string :=
  omap (fun path => fs !! path) files_to_zip.

(** Modelled from the spec: [resource_utils.CreateRJavaFiles] (not in src)
    emits "one source file per distinct package among {target package} and
    {extra per-dependency packages}". *)
Definition CreateRJavaFiles_packages (package : string)
    (extra_res_packages : list string) : list string :=
  remove_dups (package :: extra_res_packages).

(** The packages a run generated a source file for. *)
Definition emitted_source_packages (cs : list Call) : list string :=
  c ← cs;
  match c with
  | CreateRJavaFiles _ package _ extra_res_packages _ _ _ =>
      CreateRJavaFiles_packages package extra_res_packages
  | _ => []
  end.

Definition is_CreateRJavaFiles (c : Call) : bool :=
  match c with CreateRJavaFiles _ _ _ _ _ _ _ => true | _ => false end.

(** What a run that was given the identifier table [r] may do: no extraction
    of dependencies, no compiler, no placeholder; a copy and the source
    generator read [r]. *)
Definition uses_supplied_table (r : string) (c : Call) : Prop :=
  match c with
  | ExtractDeps _ _ | CheckOutput _ | Touch _ => False
  | CopyFile src _ => src = r
  | CreateRJavaFiles _ _ r_txt _ _ _ _ => r_txt = r
  | _ => True
  end.

(** The target package of lines 226-230, read off the options. *)
Definition target_package (E : Externals) (options : Options) (fs : FS)
  : option string :=
  if negb (Py.truthy (custom_package options))
     && Py.truthy (android_manifest options)
  then run_GetPackage E (Py.the (android_manifest options)) fs
  else custom_package options.

(** ** A sample world

    Resource trees given as a table from a directory to its
    [(path, archive_path)] pairs; an [aapt] that succeeds and writes the
    identifier table it is told to, if any; every file has one name and can
    be written. *)
Module Sample.

Definition tree := list (string * list (string * string)).

Fixpoint listing (t : tree) (d : string) : list (string * string) :=
  match t with
  | [] => []
  | (d', l) :: t => if bool_decide (d' = d) then l else listing t d
  end.

Definition walk (t : tree) (dirs : list string) (_ : option string)
  : list (string * string) :=
  d ← dirs; listing t d.

Definition name_below (t : tree) (f d : string) : string :=
  match list_find (fun e => bool_decide (e.1 = f)) (listing t d) with
  | Some (_, (_, a)) => a
  | None => f
  end.

Definition externals (t : tree) (package : option string)
    (r_txt : option (string * string)) : Externals :=
  {| AAPT_IGNORE_PATTERN := _AAPT_IGNORE_PATTERN;
     EMPTY_ANDROID_MANIFEST_PATH := "build/android/AndroidManifest.xml";
     MULTIPLE_RES_MAGIC_STRING := "MULTIPLE_RES_MAGIC_STRING";
     IterResourceFilesInDirectories := walk t;
     FindInDirectory := fun d _ => (listing t d).*1;
     relpath := name_below t;
     run_ExtractDeps := fun zips dest fs =>
       (imap (fun i _ => dest +:+ "/" +:+ pretty i) zips, fs);
     run_aapt := fun _ fs =>
       Some (match r_txt with Some (p, data) => <[p := data]> fs | None => fs end);
     run_GetPackage := fun _ _ => package;
     run_CreateRJavaFiles := fun _ _ _ _ _ _ _ fs => fs;
     run_ZipDir := fun _ _ fs => fs;
     run_CreateResourceInfoFile := fun _ _ fs => fs;
     run_DoZip := fun _ _ _ fs => fs;
     copy_obstacle := fun src dst _ =>
       if bool_decide (src = dst) then Some "shutil.Error" else None |}.

(** Two directories that both hold a [foo.xml]. *)
Definition tree_AB : tree :=
  [ ("A", [("A/foo.xml", "foo.xml")]); ("B", [("B/foo.xml", "foo.xml")]) ].
Definition files_AB : FS := {[ "A/foo.xml" := "v1"; "B/foo.xml" := "v2" ]}.

(** Two roots with the same basename. *)
Definition tree_res : tree :=
  [ ("x/res", [("x/res/foo.xml", "foo.xml")]);
    ("y/res", [("y/res/foo.xml", "foo.xml")]) ].

(** One directory with a checked-in file and a generated one. *)
Definition tree_gen : tree :=
  [ ("res", [("res/values/a.xml", "values/a.xml");
             ("/tmp/gen/values/b.xml", "values/b.xml")]) ].

(** A directory before and after [a.xml] is renamed to [b.xml]; each has
    the placeholder of an empty directory as well. *)
Definition tree_before : tree :=
  [ ("res", [("res/values/a.xml", "values/a.xml");
             ("res/empty/.keep", "empty/.keep")]) ].
Definition tree_after : tree :=
  [ ("res", [("res/values/b.xml", "values/b.xml");
             ("res/empty/.keep", "empty/.keep")]) ].

Definition build : BuildContext :=
  {| deps_dir := "/tmp/ctx/deps"; gen_dir := "/tmp/ctx/gen";
     r_txt_path := "/tmp/ctx/gen/R.txt"; srcjar_dir := "/tmp/ctx/java" |}.

Definition options : Options :=
  {| aapt_path := "sdk/aapt"; res_sources_path := "gen/lib.sources";
     shared_resources := false; custom_package := None;
     android_manifest := None; resource_zip_out := None;
     srcjar_out := None; r_text_out := None; strip_drawables := false;
     include_resources := ["sdk/android.jar"]; dependencies_res_zips := [];
     extra_res_packages := []; extra_r_text_files := [];
     r_text_in := None; sources := []; resource_dirs := [] |}.

(** A library target with one resource directory. *)
Definition options_lib : Options :=
  {| aapt_path := "sdk/aapt"; res_sources_path := "gen/lib.sources";
     shared_resources := false; custom_package := None;
     android_manifest := None; resource_zip_out := None;
     srcjar_out := None; r_text_out := None; strip_drawables := false;
     include_resources := ["sdk/android.jar"];
     dependencies_res_zips := ["dep0.zip"; "dep1.zip"];
     extra_res_packages := []; extra_r_text_files := [];
     r_text_in := None; sources := []; resource_dirs := ["res"] |}.

(** A target whose identifier table is prebuilt. *)
Definition options_prebuilt : Options :=
  {| aapt_path := "sdk/aapt"; res_sources_path := "gen/lib.sources";
     shared_resources := false; custom_package := Some "org.lib";
     android_manifest := None; resource_zip_out := None;
     srcjar_out := Some "out/lib.srcjar"; r_text_out := Some "out/R.txt";
     strip_drawables := false;
     include_resources := ["sdk/android.jar"]; dependencies_res_zips := [];
     extra_res_packages := []; extra_r_text_files := [];
     r_text_in := Some "lib/R.txt"; sources := []; resource_dirs := [] |}.
Definition files_prebuilt : FS :=
  {[ "lib/R.txt" := "int id ok 0x7f010000";
     "other/R.txt" := "int id cancel 0x7f010001" ]}.

(** A target without a package of its own and with two dependency
    packages. *)
Definition options_no_package : Options :=
  {| aapt_path := "sdk/aapt"; res_sources_path := "gen/lib.sources";
     shared_resources := false; custom_package := None;
     android_manifest := None; resource_zip_out := None;
     srcjar_out := Some "out/lib.srcjar"; r_text_out := None;
     strip_drawables := false;
     include_resources := ["sdk/android.jar"]; dependencies_res_zips := [];
     extra_res_packages := ["org.dep1"; "org.dep2"];
     extra_r_text_files := ["dep1/R.txt"; "dep2/R.txt"];
     r_text_in := None; sources := []; resource_dirs := [] |}.

End Sample.

(** A string without the separator that follows the ordinal. *)
Fixpoint no_underscore (s : string) : Prop :=
  match s with
  | "" => True
  | String c r => c ≠ "_"%char ∧ no_underscore r
  end.

(** The part of the aapt command that precedes the search roots. *)
Definition command_head (E : Externals) (options : Options) (gen_dir : string)
  : list string :=
  [ aapt_path options; "package"; "-m"; "-M"; EMPTY_ANDROID_MANIFEST_PATH E;
    "--no-crunch"; "--auto-add-overlay"; "--no-version-vectors" ]
  ++ (j ← include_resources options; ["-I"; j])
  ++ [ "--output-text-symbols"; gen_dir; "-J"; gen_dir; "--ignore-assets";
       if strip_drawables options
       then AAPT_IGNORE_PATTERN E +:+ ":*drawable*"
       else AAPT_IGNORE_PATTERN E ].

(** The completeness check lets the run go on: it is skipped, or finds
    nothing undeclared. *)
Definition check_passes (E : Externals) (options : Options) : Prop :=
  sources options = [] ∨
  missing_files E (sources options) (resource_dirs options) = [].

(** A call that writes an output writes the one that was asked for. *)
Definition writes_requested_output (options : Options) (c : Call) : Prop :=
  match c with
  | CopyFile _ dst =>
      Py.truthy (r_text_out options) = true ∧ dst = Py.the (r_text_out options)
  | ParseManifest _ => Py.truthy (srcjar_out options) = true
  | CreateRJavaFiles _ _ _ _ _ _ out | ZipDir out _ =>
      Py.truthy (srcjar_out options) = true ∧ out = Py.the (srcjar_out options)
  | CreateResourceInfoFile _ zip_path | DoZip _ zip_path _ =>
      Py.truthy (resource_zip_out options) = true
      ∧ zip_path = Py.the (resource_zip_out options)
  | _ => True
  end.

(** The arguments the script gives the source generator. *)
Definition source_generator_arguments (options : Options) (build : BuildContext)
    (c : Call) : Prop :=
  match c with
  | CreateRJavaFiles dir package _ packages tables rjava_build_options _ =>
      dir = srcjar_dir build ∧ package ≠ ""
      ∧ packages = extra_res_packages options
      ∧ tables = extra_r_text_files options
      ∧ rjava_build_options =
        {| export_all_resources := true; export_all_styleables := true;
           generate_on_resources_loaded := shared_resources options |}
  | _ => True
  end.

(** With [--custom-package]: the manifest is not read, the package is the
    given one. *)
Definition takes_custom_package (options : Options) (c : Call) : Prop :=
  match c with
  | ParseManifest _ => False
  | CreateRJavaFiles _ package _ _ _ _ _ =>
      package = Py.the (custom_package options)
  | _ => True
  end.

(** Without it: the manifest read is [--android-manifest], the package is
    one read from it. *)
Definition takes_manifest_package (E : Externals) (options : Options)
    (c : Call) : Prop :=
  match c with
  | ParseManifest manifest => manifest = Py.the (android_manifest options)
  | CreateRJavaFiles _ package _ _ _ _ _ =>
      ∃ fs, run_GetPackage E (Py.the (android_manifest options)) fs
            = Some package
  | _ => True
  end.

(** The position of a call in the script. *)
Definition stage (c : Call) : nat :=
  match c with
  | StderrWrite _ => 0
  | ExtractDeps _ _ => 1
  | CheckOutput _ => 2
  | Touch _ => 3
  | CopyFile _ _ => 4
  | ParseManifest _ => 5
  | CreateRJavaFiles _ _ _ _ _ _ _ => 6
  | ZipDir _ _ => 7
  | CreateResourceInfoFile _ _ => 8
  | DoZip _ _ _ => 9
  end.

(** [c1] may precede [c2]: it belongs to an earlier stage, or both are lines
    written to stderr. *)
Definition precedes (c1 c2 : Call) : Prop :=
  stage c1 < stage c2 ∨ (stage c1 = 0 ∧ stage c2 = 0).

(** The calls of a computation are in order and within stages [lo..hi]. *)
Definition staged {A} (lo hi : nat) (o : Outcome A) : Prop :=
  StronglySorted precedes (calls o)
  ∧ Forall (λ c, lo ≤ stage c ≤ hi) (calls o).

(** *** [_ParseArgs]: reading the list of sources

    Lines 82-83, [[line.strip() for line in f.readlines()]], on the contents
    of the file. *)

(** [f.readlines()]: the lines, each with its newline. *)
Fixpoint readlines (s : string) : list string :=
  match s with
  | "" => []
  | String c r =>
      if Ascii.eqb c (ascii_of_nat 10) then String c "" :: readlines r
      else match readlines r with
           | [] => [String c ""]
           | line :: lines => String c line :: lines
           end
  end.

(** [s.lstrip()], [s.rstrip()], [s.strip()] *)
Fixpoint lstrip (s : string) : string :=
  match s with
  | "" => ""
  | String c r => if Ascii.is_space c then lstrip r else s
  end.

Fixpoint rstrip (s : string) : string :=
  match s with
  | "" => ""
  | String c r =>
      match rstrip r with
      | "" => if Ascii.is_space c then "" else String c ""
      | r' => String c r'
      end
  end.

Definition strip (s : string) : string := rstrip (lstrip s).

(** [options.sources], from the contents of [--res-sources-path]. *)
Definition _ParseArgs_sources (contents : string) : list string :=
  strip <$> readlines contents.

(** A file with one entry per line. *)
Definition one_per_line (entries : list string) : string :=
  foldr (λ entry rest, entry +:+ newline +:+ rest) "" entries.

(** A string without [c]. *)
Fixpoint lacks (c : ascii) (s : string) : Prop :=
  match s with
  | "" => True
  | String c' r => c' ≠ c ∧ lacks c r
  end.

(** More sample worlds. *)
Module Sample2.

(** A walker that names [values/a.xml] twice: checked in, then generated. *)
Definition tree_override : Sample.tree :=
  [ ("res", [("res/values/a.xml", "values/a.xml");
             ("/tmp/o/values/a.xml", "values/a.xml")]) ].

(** [Sample.tree_before] found in another order. *)
Definition tree_before_shuffled : Sample.tree :=
  [ ("res", [("res/empty/.keep", "empty/.keep");
             ("res/values/a.xml", "values/a.xml")]) ].

(** An aapt that exits with a non-zero status. *)
Definition externals_failing_aapt : Externals :=
  let E := Sample.externals [] None None in
  {| AAPT_IGNORE_PATTERN := AAPT_IGNORE_PATTERN E;
     EMPTY_ANDROID_MANIFEST_PATH := EMPTY_ANDROID_MANIFEST_PATH E;
     MULTIPLE_RES_MAGIC_STRING := MULTIPLE_RES_MAGIC_STRING E;
     IterResourceFilesInDirectories := IterResourceFilesInDirectories E;
     FindInDirectory := FindInDirectory E;
     relpath := relpath E;
     run_ExtractDeps := run_ExtractDeps E;
     run_aapt := fun _ _ => None;
     run_GetPackage := run_GetPackage E;
     run_CreateRJavaFiles := run_CreateRJavaFiles E;
     run_ZipDir := run_ZipDir E;
     run_CreateResourceInfoFile := run_CreateResourceInfoFile E;
     run_DoZip := run_DoZip E;
     copy_obstacle := copy_obstacle E |}.

(** A prebuilt table that is only copied. *)
Definition options_copy_only : Options :=
  {| aapt_path := "sdk/aapt"; res_sources_path := "gen/lib.sources";
     shared_resources := false; custom_package := None;
     android_manifest := None; resource_zip_out := None;
     srcjar_out := None; r_text_out := Some "out/R.txt";
     strip_drawables := false;
     include_resources := ["sdk/android.jar"]; dependencies_res_zips := [];
     extra_res_packages := []; extra_r_text_files := [];
     r_text_in := Some "lib/R.txt"; sources := []; resource_dirs := [] |}.

(** A target that takes its package from the manifest. *)
Definition options_manifest : Options :=
  {| aapt_path := "sdk/aapt"; res_sources_path := "gen/lib.sources";
     shared_resources := true; custom_package := None;
     android_manifest := Some "java/AndroidManifest.xml";
     resource_zip_out := Some "out/lib.resources.zip";
     srcjar_out := Some "out/lib.srcjar"; r_text_out := Some "out/R.txt";
     strip_drawables := true;
     include_resources := ["sdk/android.jar"];
     dependencies_res_zips := ["dep0.zip"];
     extra_res_packages := []; extra_r_text_files := [];
     r_text_in := None; sources := []; resource_dirs := ["res"] |}.

(** A declared list that leaves out [res/values/a.xml]. *)
Definition options_undeclared : Options :=
  {| aapt_path := "sdk/aapt"; res_sources_path := "gen/lib.sources";
     shared_resources := false; custom_package := None;
     android_manifest := None; resource_zip_out := None;
     srcjar_out := None; r_text_out := None; strip_drawables := false;
     include_resources := []; dependencies_res_zips := [];
     extra_res_packages := []; extra_r_text_files := [];
     r_text_in := None; sources := ["res/empty/.keep"];
     resource_dirs := ["res"] |}.

End Sample2.

(** Lines 205-223 of [_OnStaleMd5]: the check, the identifier table and its
    copy; what precedes the generated sources. *)
Definition table_and_copy (E : Externals) (options : Options)
    (build : BuildContext) : M string :=
  when (bool_decide (sources options ≠ []))
    (_CheckAllFilesListed E (sources options) (resource_dirs options));;
  r_txt_path ← identifier_table E options build;
  when (Py.truthy (r_text_out options))
    (copyfile E r_txt_path (Py.the (r_text_out options)));;
  mret r_txt_path.

(** A step that consumes the identifier table reads it at [r]. *)
Definition reads_table (r : string) (c : Call) : Prop :=
  match c with
  | CopyFile src _ => src = r
  | CreateRJavaFiles _ _ r_txt _ _ _ _ => r_txt = r
  | _ => True
  end.

Module Sample3.

(** A world in which the package is read from the manifest: a manifest is
    represented by the package it declares, [""] when it declares none. *)
Definition externals_reading_manifest : Externals :=
  let E := Sample.externals [] None None in
  {| AAPT_IGNORE_PATTERN := AAPT_IGNORE_PATTERN E;
     EMPTY_ANDROID_MANIFEST_PATH := EMPTY_ANDROID_MANIFEST_PATH E;
     MULTIPLE_RES_MAGIC_STRING := MULTIPLE_RES_MAGIC_STRING E;
     IterResourceFilesInDirectories := IterResourceFilesInDirectories E;
     FindInDirectory := FindInDirectory E;
     relpath := relpath E;
     run_ExtractDeps := run_ExtractDeps E;
     run_aapt := run_aapt E;
     run_GetPackage := fun manifest fs => fs !! manifest;
     run_CreateRJavaFiles := run_CreateRJavaFiles E;
     run_ZipDir := run_ZipDir E;
     run_CreateResourceInfoFile := run_CreateResourceInfoFile E;
     run_DoZip := run_DoZip E;
     copy_obstacle := copy_obstacle E |}.

(** A target whose manifest declares no package, with two dependency
    packages. *)
Definition options_manifest_no_package : Options :=
  {| aapt_path := "sdk/aapt"; res_sources_path := "gen/lib.sources";
     shared_resources := false; custom_package := None;
     android_manifest := Some "java/AndroidManifest.xml";
     resource_zip_out := None;
     srcjar_out := Some "out/lib.srcjar"; r_text_out := Some "out/R.txt";
     strip_drawables := false;
     include_resources := ["sdk/android.jar"]; dependencies_res_zips := [];
     extra_res_packages := ["org.dep1"; "org.dep2"];
     extra_r_text_files := ["dep1/R.txt"; "dep2/R.txt"];
     r_text_in := None; sources := []; resource_dirs := [] |}.
Definition files_manifest_no_package : FS :=
  {[ "java/AndroidManifest.xml" := "" ]}.

(** A target with a package, all of whose resources are empty. *)
Definition options_generated : Options :=
  {| aapt_path := "sdk/aapt"; res_sources_path := "gen/lib.sources";
     shared_resources := false; custom_package := Some "org.lib";
     android_manifest := None; resource_zip_out := None;
     srcjar_out := Some "out/lib.srcjar"; r_text_out := Some "out/R.txt";
     strip_drawables := false;
     include_resources := ["sdk/android.jar"]; dependencies_res_zips := [];
     extra_res_packages := []; extra_r_text_files := [];
     r_text_in := None; sources := []; resource_dirs := [] |}.

End Sample3.

(** * Properties *)

(** Closed equations are settled by evaluation. *)
Ltac by_evaluation :=
  lazymatch goal with
  | |- ?x = ?y => vm_cast_no_check (@eq_refl _ y)
  end.

(** ** The effect monad *)

Lemma calls_bind {A B} (m : M A) (k : A -> M B) fs :
  calls ((m ≫= k) fs) =
  calls (m fs) ++
  match result (m fs) with
  | Returned a => calls (k a (files (m fs)))
  | Failed _ => []
  end.
Proof.
  unfold mbind, M_bind. destruct (result (m fs)); simpl; [done|].
  by rewrite app_nil_r.
Qed.

Lemma foldl_append_if {A B} (keep : A -> bool) (f : A -> B) (l : list A) (acc : list B) :
  foldl (fun acc x => if keep x then acc ++ [f x] else acc) acc l =
  acc ++ (f <$> filter (fun x => keep x = true) l).
Proof.
  revert acc. induction l as [|x l IH]; intros acc; simpl.
  - by rewrite app_nil_r.
  - rewrite IH, filter_cons. destruct (keep x); simpl.
    + by rewrite <-app_assoc.
    + done.
Qed.

Lemma missing_loop (declared : gset string) (l : list (string * string)) acc :
  foldl (fun missing_files '(path, _) =>
           if bool_decide (path ∉ declared)
           then missing_files ++ [path] else missing_files) acc l =
  acc ++ filter (λ p, p ∉ declared) l.*1.
Proof.
  revert acc. induction l as [|[p a] l IH]; intros acc; simpl.
  - by rewrite app_nil_r.
  - rewrite IH, filter_cons. destruct (decide (p ∉ declared)).
    + rewrite bool_decide_true by done. by rewrite <-app_assoc.
    + by rewrite bool_decide_false by done.
Qed.

Lemma missing_files_filter E resource_files resource_dirs :
  missing_files E resource_files resource_dirs =
  filter (λ p, p ∉ resource_files)
         (IterResourceFilesInDirectories E resource_dirs None).*1.
Proof.
  unfold missing_files. rewrite missing_loop. simpl.
  apply list_filter_iff. intros p. set_solver.
Qed.

Lemma bind_returned {A B} (m : M A) (k : A -> M B) fs a :
  result (m fs) = Returned a ->
  (m ≫= k) fs =
  {| calls := calls (m fs) ++ calls (k a (files (m fs)));
     files := files (k a (files (m fs)));
     result := result (k a (files (m fs))) |}.
Proof. intros H. unfold mbind, M_bind. by rewrite H. Qed.

Lemma bind_failed {A B} (m : M A) (k : A -> M B) fs e :
  result (m fs) = Failed e ->
  (m ≫= k) fs =
  {| calls := calls (m fs); files := files (m fs); result := Failed e |}.
Proof. intros H. unfold mbind, M_bind. by rewrite H. Qed.

Lemma for_each_call {A} (l : list A) (c : A -> Call) fs :
  for_each l (fun x => call (c x) id) fs =
  {| calls := c <$> l; files := fs; result := Returned tt |}.
Proof.
  induction l as [|x l IH]; simpl; [done|].
  rewrite (bind_returned _ _ _ tt) by done. simpl. by rewrite IH.
Qed.

Lemma CheckAllFilesListed_run E resource_files resource_dirs fs :
  _CheckAllFilesListed E resource_files resource_dirs fs =
  match missing_files E resource_files resource_dirs with
  | [] => {| calls := []; files := fs; result := Returned tt |}
  | l => {| calls := StderrWrite missing_files_header ::
                     ((λ p, StderrWrite (p +:+ newline)) <$> l);
            files := fs; result := Failed (SysExit 1) |}
  end.
Proof.
  unfold _CheckAllFilesListed.
  destruct (missing_files E resource_files resource_dirs) as [|p l]; [done|].
  rewrite bool_decide_true by done.
  rewrite (bind_returned _ _ _ tt) by done.
  rewrite (bind_returned _ _ _ tt) by (by rewrite for_each_call).
  rewrite for_each_call. simpl. by rewrite app_nil_r.
Qed.

(** C5: the check writes to stderr the header and then every file the walker
    finds that is not in the declared list, all of them and in the order
    found, and exits with status 1; when there is no such file it writes
    nothing and returns.  It leaves the files as they are. *)
Theorem CheckAllFilesListed_reports_all E resource_files resource_dirs fs :
  let undeclared :=
    filter (λ p, p ∉ resource_files)
           (IterResourceFilesInDirectories E resource_dirs None).*1 in
  let o := _CheckAllFilesListed E resource_files resource_dirs fs in
  files o = fs ∧
  match undeclared with
  | [] => calls o = [] ∧ result o = Returned tt ∧ exit_status o = 0
  | _ :: _ =>
      calls o = StderrWrite missing_files_header ::
                ((λ p, StderrWrite (p +:+ newline)) <$> undeclared)
      ∧ result o = Failed (SysExit 1) ∧ exit_status o = 1
  end.
Proof.
  intros undeclared o. subst o. rewrite CheckAllFilesListed_run.
  rewrite missing_files_filter. fold undeclared.
  by destruct undeclared.
Qed.

(** ** [main]: what the loop over the resource files computes *)

Lemma list_resource_files_spec E resource_dir l ip dd rn :
  foldl (list_resource_file E resource_dir) (ip, dd, rn) l =
  (ip ++ filter (λ f, is_empty_keep f = false) l,
   dd ++ filter (λ f, is_empty_keep f = false) l,
   rn ++ ((λ f, relpath E f resource_dir) <$> l)).
Proof.
  revert ip dd rn. induction l as [|f l IH]; intros ip dd rn; simpl.
  - by rewrite !app_nil_r.
  - rewrite filter_cons. fold (is_empty_keep f).
    destruct (is_empty_keep f); simpl; rewrite IH, <-?app_assoc; done.
Qed.

Lemma main_loop_spec E dirs ip dd rn :
  foldl (fun st resource_dir =>
           foldl (list_resource_file E resource_dir) st
                 (FindInDirectory E resource_dir "*"))
        (ip, dd, rn) dirs =
  let fs := d ← dirs; f ← FindInDirectory E d "*"; [(d, f)] in
  (ip ++ filter (λ f, is_empty_keep f = false) fs.*2,
   dd ++ filter (λ f, is_empty_keep f = false) fs.*2,
   rn ++ ((λ '(d, f), relpath E f d) <$> fs)).
Proof.
  revert ip dd rn. induction dirs as [|d dirs IH]; intros ip dd rn; simpl.
  - by rewrite !app_nil_r.
  - rewrite list_resource_files_spec, IH. simpl.
    rewrite !fmap_app, !filter_app, <-!app_assoc.
    assert (Hsnd : ∀ l : list string, (l ≫= λ f, [(d, f)]).*2 = l).
    { induction l as [|x l IHl]; simpl; [done|]. by f_equal. }
    assert (Hrel : ∀ l : list string,
      (λ '(d, f), relpath E f d) <$> (l ≫= λ f, [(d, f)])
      = (λ f, relpath E f d) <$> l).
    { induction l as [|x l IHl]; simpl; [done|]. by f_equal. }
    by rewrite Hsnd, Hrel.
Qed.

Lemma main_spec E options :
  main E options =
  {| input_paths := option_paths options ++
       filter (λ f, is_empty_keep f = false) (resource_files E options).*2;
     input_strings := option_strings options ++
       (Py.Str <$> Py.sorted (resource_names E options));
     output_paths := Py.keep_truthy
       [resource_zip_out options; r_text_out options; srcjar_out options];
     depfile_deps :=
       filter (λ f, is_empty_keep f = false) (resource_files E options).*2 |}.
Proof.
  unfold main. rewrite main_loop_spec. simpl.
  unfold option_paths, option_strings, resource_names, resource_files.
  by rewrite <-!app_assoc.
Qed.

Lemma sorted_Permutation l : Py.sorted l ≡ₚ l.
Proof. apply merge_sort_Permutation. Qed.

Lemma sorted_Sorted l : Sorted String.le (Py.sorted l).
Proof. apply (Sorted_merge_sort String.le). Qed.

Lemma elem_of_resource_names E options resource_dir resource_file :
  (resource_dir, resource_file) ∈ resource_files E options ->
  relpath E resource_file resource_dir ∈ resource_names E options.
Proof.
  intros H. unfold resource_names.
  apply (list_elem_of_fmap_2 (λ '(d, f), relpath E f d) _ (resource_dir, resource_file) H).
Qed.

(** C10: a resource file ending in [empty/.keep] is left out of the
    dependency record and of what the loop adds to the input paths (the
    input paths are the paths given by options followed by the dependency
    record), and its name relative to its directory is among the input
    strings; any other resource file is in the input paths and in the
    dependency record, and its name is among the input strings too. *)
Theorem empty_keep_listed_by_name_only E options resource_dir resource_file :
  (resource_dir, resource_file) ∈ resource_files E options ->
  let args := main E options in
  Py.Str (relpath E resource_file resource_dir) ∈ input_strings args ∧
  input_paths args = option_paths options ++ depfile_deps args ∧
  if is_empty_keep resource_file
  then (resource_file ∉ depfile_deps args) ∧
       (resource_file ∈ input_paths args → resource_file ∈ option_paths options)
  else resource_file ∈ input_paths args ∧ resource_file ∈ depfile_deps args.
Proof.
  intros Hin args. subst args. rewrite main_spec. simpl.
  split; [|split; [done|]].
  - apply elem_of_app. right. apply list_elem_of_fmap_2.
    rewrite sorted_Permutation. by apply elem_of_resource_names.
  - assert (Hf : resource_file ∈ (resource_files E options).*2).
    { apply (list_elem_of_fmap_2 snd _ _ Hin). }
    destruct (is_empty_keep resource_file) eqn:Hk.
    + assert (Hno : resource_file ∉
        filter (λ f, is_empty_keep f = false) (resource_files E options).*2).
      { rewrite list_elem_of_filter. intros [Hk' _]. congruence. }
      split; [done|]. rewrite elem_of_app. by intros [?|?].
    + assert (Hyes : resource_file ∈
        filter (λ f, is_empty_keep f = false) (resource_files E options).*2).
      { by apply list_elem_of_filter. }
      split; [|done]. apply elem_of_app. by right.
Qed.

(** C4: the input strings end with the sorted names of all resource files,
    taken relative to their directories; so two file trees whose names differ
    (as a rename makes them) give different input strings. *)
Theorem resource_names_in_input_strings E E' options :
  ¬ resource_names E options ≡ₚ resource_names E' options ->
  (input_strings (main E options) =
     option_strings options ++ (Py.Str <$> Py.sorted (resource_names E options))
   ∧ Sorted String.le (Py.sorted (resource_names E options))
   ∧ Py.sorted (resource_names E options) ≡ₚ resource_names E options)
  ∧ input_strings (main E options) ≠ input_strings (main E' options).
Proof.
  intros Hdiff. rewrite !main_spec. simpl.
  split; [split; [done|split]|].
  - apply sorted_Sorted.
  - apply sorted_Permutation.
  - intros Heq. apply app_inv_head in Heq.
    assert (Inj (=) (=) Py.Str) by (intros ?? [=]; done).
    apply (inj (fmap Py.Str)) in Heq.
    apply Hdiff. by rewrite <-(sorted_Permutation (resource_names E options)),
      Heq, sorted_Permutation.
Qed.

(** ** Archive paths *)

Lemma pretty_N_go_no_underscore x s :
  no_underscore s → no_underscore (pretty_N_go x s).
Proof.
  revert s. induction (N.lt_wf_0 x) as [x _ IH]; intros s Hs.
  destruct (decide (x = 0)%N) as [->|Hx].
  - by rewrite pretty_N_go_0.
  - rewrite pretty_N_go_step by lia. apply IH.
    + apply N.div_lt; lia.
    + split; [|done]. unfold pretty_N_char. by repeat case_match.
Qed.

Lemma format_int_no_underscore n : no_underscore (Py.format_int n).
Proof.
  unfold Py.format_int, pretty, pretty_nat, pretty, pretty_N.
  case_decide; [by repeat split|]. by apply pretty_N_go_no_underscore.
Qed.

Lemma underscore_splits d1 d2 r1 r2 :
  no_underscore d1 → no_underscore d2 →
  d1 +:+ String "_" r1 = d2 +:+ String "_" r2 → d1 = d2 ∧ r1 = r2.
Proof.
  revert d2. induction d1 as [|c d1 IH]; intros [|c' d2]; simpl.
  - intros _ _ [= ->]. done.
  - intros _ [Hc _] [= <- _]. done.
  - intros [Hc _] _ [= -> _]. done.
  - intros [_ H1] [_ H2] [= -> Heq]. destruct (IH _ H1 H2 Heq) as [-> ->]. done.
Qed.

Lemma format_archive_path_inj i j b b' r r' :
  format_archive_path i b r = format_archive_path j b' r' →
  i = j ∧ b +:+ "/" +:+ r = b' +:+ "/" +:+ r'.
Proof.
  unfold format_archive_path. intros H.
  apply underscore_splits in H as [Hi Hr]; auto using format_int_no_underscore.
  split; [|done]. by apply (inj pretty) in Hi.
Qed.

Lemma format_archive_path_inj_name i b r r' :
  format_archive_path i b r = format_archive_path i b r' → r = r'.
Proof.
  intros H. apply format_archive_path_inj in H as [_ H].
  apply (inj (String.app b)) in H. by simplify_eq/=.
Qed.

(** ** [_ZipResources]: the two dictionaries *)

Lemma foldl_insert_list_to_map (l : list (string * string)) (m : gmap string string) :
  foldl (λ m kv, <[kv.1 := kv.2]> m) m l = list_to_map (reverse l) ∪ m.
Proof.
  revert m. induction l as [|[k v] l IH]; intros m; simpl.
  - by rewrite (left_id_L ∅ (∪)).
  - rewrite IH, reverse_cons, list_to_map_app. simpl.
    rewrite <-(assoc_L (∪)). f_equal.
    by rewrite insert_empty, <-insert_union_singleton_l.
Qed.

Lemma zip_entry_loop index resource_dir l a w :
  let ents := (λ '(path, archive_path),
      (format_archive_path index (Py.basename resource_dir) archive_path, path))
      <$> l in
  foldl (zip_entry index resource_dir) (a, w) l =
  (list_to_map (reverse ents) ∪ a,
   list_to_map (reverse (filter from_sources ents)) ∪ w).
Proof.
  revert a w. induction l as [|[path ap] l IH]; intros a w; simpl.
  - by rewrite !(left_id_L ∅ (∪)).
  - rewrite IH, filter_cons.
    destruct (Py.startswith path "/tmp") eqn:Hs; simpl.
    + rewrite decide_False by (unfold from_sources; simpl; congruence).
      rewrite reverse_cons, list_to_map_app. simpl.
      rewrite <-(assoc_L (∪)), insert_empty, <-insert_union_singleton_l. done.
    + rewrite decide_True by (unfold from_sources; simpl; congruence).
      rewrite !reverse_cons, !list_to_map_app. simpl.
      rewrite <-!(assoc_L (∪)), !insert_empty, <-!insert_union_singleton_l. done.
Qed.

Lemma zip_dicts_loop E pat n dirs a w :
  let ents :=
    '(index, resource_dir) ← enumerate_from n dirs;
    (λ '(path, archive_path),
       (format_archive_path index (Py.basename resource_dir) archive_path, path))
      <$> IterResourceFilesInDirectories E [resource_dir] (Some pat) in
  foldl (fun dicts '(index, resource_dir) =>
           foldl (zip_entry index resource_dir) dicts
             (IterResourceFilesInDirectories E [resource_dir] (Some pat)))
        (a, w) (enumerate_from n dirs) =
  (list_to_map (reverse ents) ∪ a,
   list_to_map (reverse (filter from_sources ents)) ∪ w).
Proof.
  revert n a w. induction dirs as [|d dirs IH]; intros n a w; simpl.
  - by rewrite !(left_id_L ∅ (∪)).
  - rewrite zip_entry_loop, IH. simpl.
    rewrite filter_app, !reverse_app, !list_to_map_app, <-!(assoc_L (∪)). done.
Qed.

Lemma zip_dicts_spec E dirs pat :
  zip_dicts E dirs pat =
  (list_to_map (reverse (zip_entries E dirs pat)),
   list_to_map (reverse (filter from_sources (zip_entries E dirs pat)))).
Proof.
  unfold zip_dicts, enumerate. rewrite zip_dicts_loop. simpl.
  by rewrite !(right_id_L ∅ (∪)).
Qed.

Lemma zip_entries_from_keys E pat n dirs k p :
  (k, p) ∈ ('(index, resource_dir) ← enumerate_from n dirs;
            (λ '(path, archive_path),
               (format_archive_path index (Py.basename resource_dir) archive_path, path))
              <$> IterResourceFilesInDirectories E [resource_dir] (Some pat)) ↔
  ∃ i d r, dirs !! i = Some d ∧
    (p, r) ∈ IterResourceFilesInDirectories E [d] (Some pat) ∧
    k = format_archive_path (n + i) (Py.basename d) r.
Proof.
  revert n. induction dirs as [|d dirs IH]; intros n; simpl.
  - split; [by intros ?%elem_of_nil|]. by intros (i & ? & ? & ? & _).
  - rewrite elem_of_app, IH, list_elem_of_fmap. split.
    + intros [([p' r] & [= -> ->] & Hin)|(i & d' & r & Hd & Hin & ->)].
      * exists 0, d, r. by rewrite Nat.add_0_r.
      * exists (S i), d', r. by rewrite Nat.add_succ_r.
    + intros ([|i] & d' & r & Hd & Hin & ->); simplify_eq/=.
      * left. exists (p, r). by rewrite Nat.add_0_r.
      * right. exists i, d', r. by rewrite Nat.add_succ_r.
Qed.

Lemma elem_of_zip_entries E dirs pat k p :
  (k, p) ∈ zip_entries E dirs pat ↔
  ∃ i d r, dirs !! i = Some d ∧
    (p, r) ∈ IterResourceFilesInDirectories E [d] (Some pat) ∧
    k = format_archive_path i (Py.basename d) r.
Proof. unfold zip_entries, enumerate. by rewrite zip_entries_from_keys. Qed.

Lemma NoDup_zip_entries_from E pat n dirs :
  walker_names_once E pat →
  NoDup ('(index, resource_dir) ← enumerate_from n dirs;
         (λ '(path, archive_path),
            (format_archive_path index (Py.basename resource_dir) archive_path, path))
           <$> IterResourceFilesInDirectories E [resource_dir] (Some pat)).*1.
Proof.
  intros Hwalk. revert n. induction dirs as [|d dirs IH]; intros n; simpl.
  - constructor.
  - rewrite fmap_app. apply NoDup_app. split; [|split; [|apply IH]].
    + rewrite <-list_fmap_compose.
      assert (Heq : (fst ∘ (λ '(path, archive_path),
                 (format_archive_path n (Py.basename d) archive_path, path)))
              <$> IterResourceFilesInDirectories E [d] (Some pat)
              = format_archive_path n (Py.basename d)
                  <$> (IterResourceFilesInDirectories E [d] (Some pat)).*2).
      { rewrite <-list_fmap_compose. apply list_fmap_ext. by intros ? [??]. }
      rewrite Heq. apply NoDup_fmap_2; [|apply Hwalk].
      intros r r'. apply format_archive_path_inj_name.
    + intros k Hk Hk'.
      apply list_elem_of_fmap in Hk as ([k1 p1] & -> & Hk).
      apply list_elem_of_fmap in Hk as ([p r] & [= -> ->] & _).
      apply list_elem_of_fmap in Hk' as ([k2 p2] & Heq & Hk'). simpl in Heq. subst k2.
      apply zip_entries_from_keys in Hk' as (i & d' & r' & _ & _ & Hfmt).
      apply format_archive_path_inj in Hfmt as [Hi _]. lia.
Qed.

Lemma NoDup_zip_entries E dirs pat :
  walker_names_once E pat → NoDup (zip_entries E dirs pat).*1.
Proof. apply NoDup_zip_entries_from. Qed.

Lemma files_to_zip_lookup E dirs pat k p :
  walker_names_once E pat →
  (zip_dicts E dirs pat).1 !! k = Some p ↔ (k, p) ∈ zip_entries E dirs pat.
Proof.
  intros Hwalk. rewrite zip_dicts_spec. simpl.
  rewrite <-elem_of_list_to_map, elem_of_reverse; [done|].
  rewrite fmap_reverse, reverse_Permutation. by apply NoDup_zip_entries.
Qed.

Lemma files_to_zip_without_generated_lookup E dirs pat k p :
  walker_names_once E pat →
  (zip_dicts E dirs pat).2 !! k = Some p ↔
  (k, p) ∈ zip_entries E dirs pat ∧ Py.startswith p "/tmp" = false.
Proof.
  intros Hwalk. rewrite zip_dicts_spec. simpl.
  rewrite <-elem_of_list_to_map, elem_of_reverse, list_elem_of_filter.
  - unfold from_sources. simpl. tauto.
  - rewrite fmap_reverse, reverse_Permutation.
    eapply sublist_NoDup; [by apply (NoDup_zip_entries E dirs pat)|].
    apply fmap_sublist, sublist_filter.
Qed.

(** The sample walker names every file of a directory once when the table
    does. *)
Lemma sample_walker_names_once t pat :
  Forall (λ e, NoDup e.2.*2) t →
  walker_names_once (Sample.externals t None None) pat.
Proof.
  intros Ht d. simpl. unfold Sample.walk. simpl. rewrite app_nil_r.
  induction Ht as [|[d' l] t Hl Ht IH]; simpl; [constructor|].
  by case_bool_decide.
Qed.

Ltac sample_tree_names_once :=
  repeat (apply Forall_cons; split; [simpl; by apply (bool_decide_unpack _)|]);
  by apply Forall_nil.

(** C3: when the walker names no file of a directory twice, the dictionary
    [_ZipResources] hands to [DoZip] for the archive at [zip_path] has every
    file found below the [i]-th directory under
    ['{i}_{basename}/{archive_path}'] and nothing else; paths built for
    different ordinals differ, whatever the basenames.  With
    [A = [foo.xml]] at ordinal 0 and [B = [foo.xml]] at ordinal 1 the
    dictionary handed to [DoZip] has [0_A/foo.xml] from A and [1_B/foo.xml]
    from B, so the archive holds the first with A's contents and the second
    with B's. *)
Theorem archive_paths_are_namespaced E dirs zip_path pat fs :
  walker_names_once E pat →
  let files_to_zip := (zip_dicts E dirs pat).1 in
  calls (_ZipResources E dirs zip_path pat fs) =
    [ CreateResourceInfoFile (zip_dicts E dirs pat).2 zip_path;
      DoZip files_to_zip zip_path (MULTIPLE_RES_MAGIC_STRING E) ]
  ∧ (∀ i d path r,
       dirs !! i = Some d →
       (path, r) ∈ IterResourceFilesInDirectories E [d] (Some pat) →
       files_to_zip !! format_archive_path i (Py.basename d) r = Some path)
  ∧ (∀ k path,
       files_to_zip !! k = Some path →
       ∃ i d r, dirs !! i = Some d ∧
         (path, r) ∈ IterResourceFilesInDirectories E [d] (Some pat) ∧
         k = format_archive_path i (Py.basename d) r)
  ∧ (∀ i j b b' r r',
       i ≠ j → format_archive_path i b r ≠ format_archive_path j b' r')
  ∧ (let E_AB := Sample.externals Sample.tree_AB None None in
     let archive : gmap string string :=
       {[ "0_A/foo.xml" := "A/foo.xml"; "1_B/foo.xml" := "B/foo.xml" ]} in
     calls (_ZipResources E_AB ["A"; "B"] zip_path pat Sample.files_AB) =
       [ CreateResourceInfoFile archive zip_path;
         DoZip archive zip_path (MULTIPLE_RES_MAGIC_STRING E_AB) ]
     ∧ archive_contents Sample.files_AB archive
       = {[ "0_A/foo.xml" := "v1"; "1_B/foo.xml" := "v2" ]}
     ∧ archive_contents Sample.files_AB (zip_dicts E_AB ["A"; "B"] pat).1
       = {[ "0_A/foo.xml" := "v1"; "1_B/foo.xml" := "v2" ]}).
Proof.
  intros Hwalk files_to_zip. subst files_to_zip.
  split; [|split; [|split; [|split]]].
  - unfold _ZipResources. by destruct (zip_dicts E dirs pat).
  - intros i d path r Hd Hin. apply files_to_zip_lookup; [done|].
    apply elem_of_zip_entries. eauto 10.
  - intros k path Hk. apply files_to_zip_lookup in Hk; [|done].
    by apply elem_of_zip_entries in Hk.
  - intros i j b b' r r' Hne Heq.
    by apply format_archive_path_inj in Heq as [? _].
  - intros E_AB archive.
    assert (Hdicts : zip_dicts E_AB ["A"; "B"] pat = (archive, archive))
      by by_evaluation.
    split; [|split].
    + unfold _ZipResources. by rewrite Hdicts.
    + by_evaluation.
    + by_evaluation.
Qed.

Lemma archive_paths_are_namespaced_witness :
  let E := Sample.externals Sample.tree_res None None in
  (zip_dicts E ["x/res"; "y/res"] _AAPT_IGNORE_PATTERN).1 !! "1_res/foo.xml"
    = Some "y/res/foo.xml"
  ∧ calls (_ZipResources E ["x/res"; "y/res"] "out/lib.resources.zip"
             _AAPT_IGNORE_PATTERN ∅) =
    [ CreateResourceInfoFile
        (zip_dicts E ["x/res"; "y/res"] _AAPT_IGNORE_PATTERN).2
        "out/lib.resources.zip";
      DoZip (zip_dicts E ["x/res"; "y/res"] _AAPT_IGNORE_PATTERN).1
        "out/lib.resources.zip" (MULTIPLE_RES_MAGIC_STRING E) ].
Proof.
  intros E.
  assert (Hwalk : walker_names_once E _AAPT_IGNORE_PATTERN).
  { apply sample_walker_names_once.
    sample_tree_names_once. }
  destruct (archive_paths_are_namespaced E ["x/res"; "y/res"]
              "out/lib.resources.zip" _AAPT_IGNORE_PATTERN ∅ Hwalk)
    as (Hcalls & Hlookup & _).
  split; [|exact Hcalls].
  apply (Hlookup 1 "y/res" "y/res/foo.xml" "foo.xml").
  - reflexivity.
  - vm_compute. apply list_elem_of_here.
Defined.

(** C8: when the walker names no file of a directory twice, the provenance
    record handed to [CreateResourceInfoFile] is the archive dictionary
    handed to [DoZip] restricted to the entries whose source path does not
    start with [/tmp]; the archive dictionary has every entry the loops met,
    those below [/tmp] included. *)
Theorem provenance_is_archive_without_tmp E dirs zip_path pat fs :
  walker_names_once E pat →
  let archive := (zip_dicts E dirs pat).1 in
  let provenance := (zip_dicts E dirs pat).2 in
  calls (_ZipResources E dirs zip_path pat fs) =
    [ CreateResourceInfoFile provenance zip_path;
      DoZip archive zip_path (MULTIPLE_RES_MAGIC_STRING E) ]
  ∧ provenance = filter from_sources archive
  ∧ provenance ⊆ archive
  ∧ (∀ k p, (k, p) ∈ zip_entries E dirs pat → archive !! k = Some p)
  ∧ (∀ k p, provenance !! k = Some p ↔
            archive !! k = Some p ∧ Py.startswith p "/tmp" = false).
Proof.
  intros Hwalk archive provenance.
  assert (Hiff : ∀ k p, provenance !! k = Some p ↔
            archive !! k = Some p ∧ Py.startswith p "/tmp" = false).
  { intros k p. subst archive provenance.
    by rewrite files_to_zip_without_generated_lookup, files_to_zip_lookup. }
  assert (Heq : provenance = filter from_sources archive).
  { apply map_eq. intros k. apply option_eq. intros p.
    rewrite Hiff, map_lookup_filter_Some. done. }
  split; [|split; [done|split; [|split; [|done]]]].
  - unfold _ZipResources. subst archive provenance.
    destruct (zip_dicts E dirs pat) as [a w]. done.
  - rewrite Heq. apply map_filter_subseteq.
  - intros k p Hin. by apply files_to_zip_lookup.
Qed.

Lemma provenance_is_archive_without_tmp_witness :
  let E := Sample.externals Sample.tree_gen None None in
  (zip_dicts E ["res"] _AAPT_IGNORE_PATTERN).2
    = {[ "0_res/values/a.xml" := "res/values/a.xml" ]}
  ∧ (zip_dicts E ["res"] _AAPT_IGNORE_PATTERN).1
    = {[ "0_res/values/a.xml" := "res/values/a.xml";
         "0_res/values/b.xml" := "/tmp/gen/values/b.xml" ]}
  ∧ (zip_dicts E ["res"] _AAPT_IGNORE_PATTERN).2
    = filter from_sources (zip_dicts E ["res"] _AAPT_IGNORE_PATTERN).1.
Proof.
  intros E. split; [by_evaluation|split; [by_evaluation|]].
  apply (provenance_is_archive_without_tmp E ["res"] "out.zip"
           _AAPT_IGNORE_PATTERN ∅).
  apply sample_walker_names_once.
    sample_tree_names_once.
Defined.

(** ** [_GenerateRTxt]: the command line *)

Lemma foldl_flag (flag : string) (l acc : list string) :
  foldl (fun cmd d => cmd ++ [flag; d]) acc l = acc ++ (d ← l; [flag; d]).
Proof.
  revert acc. induction l as [|d l IH]; intros acc; simpl.
  - by rewrite app_nil_r.
  - by rewrite IH, <-app_assoc.
Qed.

Lemma flag_args_lookup (flag : string) (l : list string) i d :
  l !! i = Some d →
  (d ← l; [flag; d]) !! (2 * i) = Some flag ∧
  (d ← l; [flag; d]) !! S (2 * i) = Some d.
Proof.
  revert i. induction l as [|x l IH]; intros [|i] Hi; simplify_eq/=; [done|].
  replace (i + S (i + 0)) with (S (2 * i)) by lia. simpl. by apply IH.
Qed.

Lemma flag_args_length (flag : string) (l : list string) :
  length (d ← l; [flag; d]) = 2 * length l.
Proof.
  induction l as [|x l IH]; [done|].
  rewrite bind_cons, length_app, IH. simpl. lia.
Qed.

Lemma package_command_spec E options dep_subdirs gen_dir :
  package_command E options dep_subdirs gen_dir =
  command_head E options gen_dir
  ++ (d ← dep_subdirs; ["-S"; d]) ++ (d ← resource_dirs options; ["-S"; d]).
Proof.
  unfold package_command, command_head. rewrite !foldl_flag.
  by rewrite <-!app_assoc.
Qed.

(** C7: the command handed to aapt is a head without search roots, then
    [-S d] for every extracted dependency directory, then [-S r] for every
    resource directory of the target: each dependency root stands before
    each of the target's own. *)
Theorem dependency_roots_before_own E options dep_subdirs gen_dir fs i j d r :
  dep_subdirs !! i = Some d →
  resource_dirs options !! j = Some r →
  let cmd := package_command E options dep_subdirs gen_dir in
  let head := command_head E options gen_dir in
  let p := length head + 2 * i in
  let q := length head + 2 * length dep_subdirs + 2 * j in
  calls (_GenerateRTxt E options dep_subdirs gen_dir fs) = [CheckOutput cmd]
  ∧ cmd = head ++ (d ← dep_subdirs; ["-S"; d])
               ++ (d ← resource_dirs options; ["-S"; d])
  ∧ cmd !! p = Some "-S" ∧ cmd !! S p = Some d
  ∧ cmd !! q = Some "-S" ∧ cmd !! S q = Some r
  ∧ S p < q.
Proof.
  intros Hi Hj cmd head p q.
  assert (Hcmd : cmd = head ++ (d ← dep_subdirs; ["-S"; d])
                     ++ (d ← resource_dirs options; ["-S"; d])).
  { apply package_command_spec. }
  destruct (flag_args_lookup "-S" _ _ _ Hi) as [Hp1 Hp2].
  destruct (flag_args_lookup "-S" _ _ _ Hj) as [Hq1 Hq2].
  pose proof (flag_args_length "-S" dep_subdirs) as Hlen.
  apply lookup_lt_Some in Hi as Hlt.
  split; [|split; [done|]].
  { unfold _GenerateRTxt, check_output. fold cmd.
    by destruct (run_aapt E cmd fs). }
  rewrite Hcmd. subst p q.
  repeat split.
  - rewrite lookup_app_r by lia. rewrite lookup_app_l by lia.
    by replace (length head + 2 * i - length head) with (2 * i) by lia.
  - rewrite lookup_app_r by lia. rewrite lookup_app_l by lia.
    by replace (S (length head + 2 * i) - length head) with (S (2 * i)) by lia.
  - rewrite lookup_app_r by lia. rewrite lookup_app_r by lia.
    rewrite Hlen.
    by replace (length head + 2 * length dep_subdirs + 2 * j - length head
                - 2 * length dep_subdirs) with (2 * j) by lia.
  - rewrite lookup_app_r by lia. rewrite lookup_app_r by lia.
    rewrite Hlen.
    by replace (S (length head + 2 * length dep_subdirs + 2 * j) - length head
                - 2 * length dep_subdirs) with (S (2 * j)) by lia.
  - lia.
Qed.

Lemma dependency_roots_before_own_witness :
  let cmd := package_command (Sample.externals [] None None) Sample.options_lib
               ["/tmp/ctx/deps/0"; "/tmp/ctx/deps/1"] "/tmp/ctx/gen" in
  cmd !! 18 = Some "-S" ∧ cmd !! 19 = Some "/tmp/ctx/deps/1" ∧
  cmd !! 20 = Some "-S" ∧ cmd !! 21 = Some "res".
Proof.
  intros cmd.
  destruct (dependency_roots_before_own (Sample.externals [] None None)
              Sample.options_lib ["/tmp/ctx/deps/0"; "/tmp/ctx/deps/1"]
              "/tmp/ctx/gen" ∅ 1 0 "/tmp/ctx/deps/1" "res" eq_refl eq_refl)
    as (_ & _ & H1 & H2 & H3 & H4 & _).
  exact (conj H1 (conj H2 (conj H3 H4))).
Defined.

(** ** Instances of the statements about [main] *)

Lemma empty_keep_listed_by_name_only_witness :
  let E := Sample.externals Sample.tree_before None None in
  let args := main E Sample.options_lib in
  (Py.Str "empty/.keep" ∈ input_strings args
   ∧ "res/empty/.keep" ∉ depfile_deps args)
  ∧ ("res/values/a.xml" ∈ input_paths args
     ∧ "res/values/a.xml" ∈ depfile_deps args).
Proof.
  intros E args. split.
  - destruct (empty_keep_listed_by_name_only E Sample.options_lib
                "res" "res/empty/.keep") as (H1 & _ & H2 & _).
    { vm_compute. apply list_elem_of_further, list_elem_of_here. }
    exact (conj H1 H2).
  - destruct (empty_keep_listed_by_name_only E Sample.options_lib
                "res" "res/values/a.xml") as (_ & _ & H).
    { vm_compute. apply list_elem_of_here. }
    exact H.
Defined.

Lemma resource_names_in_input_strings_witness :
  input_strings (main (Sample.externals Sample.tree_before None None)
                      Sample.options_lib)
  ≠ input_strings (main (Sample.externals Sample.tree_after None None)
                        Sample.options_lib).
Proof.
  apply resource_names_in_input_strings.
  intros HP.
  assert (H : "values/a.xml" ∈
              resource_names (Sample.externals Sample.tree_after None None)
                Sample.options_lib).
  { rewrite <-HP. vm_compute. apply list_elem_of_here. }
  vm_compute in H.
  apply elem_of_cons in H as [H|H]; [discriminate|].
  apply elem_of_cons in H as [H|H]; [discriminate|].
  by apply elem_of_nil in H.
Defined.

(** ** [_OnStaleMd5]: the stages *)

Lemma result_bind_returned {A B} (m : M A) (k : A -> M B) fs b :
  result ((m ≫= k) fs) = Returned b →
  ∃ a, result (m fs) = Returned a ∧ result (k a (files (m fs))) = Returned b.
Proof.
  unfold mbind, M_bind. destruct (result (m fs)) as [a|e]; simpl; [eauto|done].
Qed.

Lemma calls_satisfy_bind {A B} (P : Call → Prop) (m : M A) (k : A -> M B) fs :
  calls_satisfy P (m fs) →
  (∀ a, result (m fs) = Returned a → calls_satisfy P (k a (files (m fs)))) →
  calls_satisfy P ((m ≫= k) fs).
Proof.
  unfold calls_satisfy. intros Hm Hk. rewrite calls_bind.
  apply Forall_app. split; [done|].
  destruct (result (m fs)) as [a|e]; [by apply Hk|constructor].
Qed.

Lemma check_calls_satisfy (P : Call → Prop) E options fs :
  (∀ s, P (StderrWrite s)) →
  calls_satisfy P
    (when (bool_decide (sources options ≠ []))
       (_CheckAllFilesListed E (sources options) (resource_dirs options)) fs).
Proof.
  intros HP. unfold calls_satisfy, when. case_bool_decide; [|constructor].
  rewrite CheckAllFilesListed_run.
  destruct (missing_files E _ _); simpl; [constructor|].
  constructor; [done|]. constructor; [done|].
  apply Forall_fmap, Forall_true. intros ?. apply HP.
Qed.

Lemma identifier_table_supplied E options build fs :
  Py.truthy (r_text_in options) = true →
  identifier_table E options build fs =
  {| calls := []; files := fs; result := Returned (Py.the (r_text_in options)) |}.
Proof. intros H. unfold identifier_table. by rewrite H. Qed.

Lemma copyfile_calls E src dst fs :
  calls (copyfile E src dst fs) = [CopyFile src dst].
Proof.
  unfold copyfile. destruct (fs !! src); [|done].
  by destruct (copy_obstacle E src dst fs).
Qed.

Lemma source_archive_run E options build r fs :
  let package := target_package E options fs in
  let rjava_build_options :=
    {| export_all_resources := true; export_all_styleables := true;
       generate_on_resources_loaded := shared_resources options |} in
  result (source_archive E options build r fs) = Returned tt ∧
  calls (source_archive E options build r fs) =
  if Py.truthy (srcjar_out options) then
    (if negb (Py.truthy (custom_package options))
        && Py.truthy (android_manifest options)
     then [ParseManifest (Py.the (android_manifest options))] else [])
    ++ (if Py.truthy package
        then [CreateRJavaFiles (srcjar_dir build) (Py.the package) r
                (extra_res_packages options) (extra_r_text_files options)
                rjava_build_options (Py.the (srcjar_out options))]
        else [])
    ++ [ZipDir (Py.the (srcjar_out options)) (srcjar_dir build)]
  else [].
Proof.
  intros package rjava_build_options. subst package rjava_build_options.
  unfold source_archive, target_package, when.
  destruct (Py.truthy (srcjar_out options)); [|done].
  destruct (negb (Py.truthy (custom_package options))
            && Py.truthy (android_manifest options)).
  - unfold get_package, mbind, M_bind; simpl.
    destruct (Py.truthy (run_GetPackage E _ fs)); simpl; [|done].
    by destruct (shared_resources options).
  - unfold mbind, M_bind; simpl.
    destruct (Py.truthy (custom_package options)); simpl; [|done].
    by destruct (shared_resources options).
Qed.

Lemma ZipResources_run E dirs zip_path pat fs :
  result (_ZipResources E dirs zip_path pat fs) = Returned tt ∧
  calls (_ZipResources E dirs zip_path pat fs) =
  [ CreateResourceInfoFile (zip_dicts E dirs pat).2 zip_path;
    DoZip (zip_dicts E dirs pat).1 zip_path (MULTIPLE_RES_MAGIC_STRING E) ].
Proof. unfold _ZipResources. by destruct (zip_dicts E dirs pat). Qed.

Lemma resources_zip_calls_satisfy (P : Call → Prop) E options fs :
  (∀ m z, P (CreateResourceInfoFile m z)) → (∀ m z c, P (DoZip m z c)) →
  calls_satisfy P
    (when (Py.truthy (resource_zip_out options))
       (_GenerateResourcesZip E (Py.the (resource_zip_out options))
          (resource_dirs options) (strip_drawables options)) fs).
Proof.
  intros H1 H2. unfold calls_satisfy, when, _GenerateResourcesZip.
  destruct (Py.truthy (resource_zip_out options)); [|constructor].
  rewrite (proj2 (ZipResources_run _ _ _ _ _)). by repeat constructor.
Qed.

Lemma check_run E options fs :
  files (when (bool_decide (sources options ≠ []))
           (_CheckAllFilesListed E (sources options) (resource_dirs options)) fs)
  = fs.
Proof.
  unfold when. case_bool_decide; [|done].
  rewrite CheckAllFilesListed_run. by destruct (missing_files E _ _).
Qed.

Lemma check_passes_run E options fs :
  check_passes E options →
  when (bool_decide (sources options ≠ []))
       (_CheckAllFilesListed E (sources options) (resource_dirs options)) fs
  = {| calls := []; files := fs; result := Returned tt |}.
Proof.
  intros [Hs|Hm]; unfold when.
  - by rewrite bool_decide_false by (by intros ?).
  - case_bool_decide; [|done]. by rewrite CheckAllFilesListed_run, Hm.
Qed.

(** A run that returns went through every stage. *)
Lemma OnStaleMd5_returned E options build fs :
  result (_OnStaleMd5 E options build fs) = Returned tt →
  ∃ pre post r fs',
    result (identifier_table E options build fs) = Returned r ∧
    calls (_OnStaleMd5 E options build fs) =
      pre ++ calls (source_archive E options build r fs') ++ post.
Proof.
  unfold _OnStaleMd5. intros H.
  rewrite calls_bind.
  apply result_bind_returned in H as ([] & H1 & H). rewrite H1.
  rewrite check_run in H |- *.
  rewrite calls_bind.
  apply result_bind_returned in H as (r & H2 & H). rewrite H2.
  rewrite calls_bind.
  apply result_bind_returned in H as ([] & H3 & H). rewrite H3.
  rewrite calls_bind.
  apply result_bind_returned in H as ([] & H4 & H). rewrite H4.
  match goal with
  | |- ∃ _ _ _ _, _ ∧ ?a ++ ?b ++ ?c ++ calls (source_archive _ _ _ _ ?f) ++ ?e = _ =>
      exists (a ++ b ++ c), e, r, f
  end.
  split; [done|]. by rewrite <-!app_assoc.
Qed.

(** C9: with [--r-text-in] the run extracts no dependency archive, runs no
    compiler and makes no placeholder; the table path of lines 207-220 is the
    supplied one; whatever is copied to [--r-text-out] and whatever the
    source generator reads is the supplied table.  When the completeness
    check lets the run go on, the copy is made; in a run that returns with a
    target package, the source generator is called on the supplied table. *)
Theorem supplied_table_used_directly E options build fs :
  Py.truthy (r_text_in options) = true →
  let r := Py.the (r_text_in options) in
  let o := _OnStaleMd5 E options build fs in
  calls_satisfy (uses_supplied_table r) o
  ∧ identifier_table E options build fs
    = {| calls := []; files := fs; result := Returned r |}
  ∧ (check_passes E options → Py.truthy (r_text_out options) = true →
     CopyFile r (Py.the (r_text_out options)) ∈ calls o)
  ∧ (result o = Returned tt → Py.truthy (srcjar_out options) = true →
     Py.truthy (custom_package options) = true →
     ∃ rjava_build_options,
       CreateRJavaFiles (srcjar_dir build) (Py.the (custom_package options)) r
         (extra_res_packages options) (extra_r_text_files options)
         rjava_build_options (Py.the (srcjar_out options)) ∈ calls o).
Proof.
  intros Hr r o. split; [|split; [|split]].
  - subst o. unfold _OnStaleMd5.
    apply calls_satisfy_bind; [by apply check_calls_satisfy|]. intros [] _.
    rewrite check_run.
    apply calls_satisfy_bind.
    { rewrite identifier_table_supplied by done. constructor. }
    intros r'. rewrite identifier_table_supplied by done. simpl.
    intros [= <-]. fold r.
    apply calls_satisfy_bind.
    { unfold calls_satisfy, when.
      destruct (Py.truthy (r_text_out options)); [|constructor].
      rewrite copyfile_calls. by repeat constructor. }
    intros [] _. apply calls_satisfy_bind.
    { unfold calls_satisfy.
      rewrite (proj2 (source_archive_run _ _ _ _ _)).
      repeat (case_match; simpl); by repeat constructor. }
    intros [] _. by apply resources_zip_calls_satisfy.
  - by apply identifier_table_supplied.
  - intros Hcheck Hout. subst o. unfold _OnStaleMd5.
    rewrite calls_bind, check_passes_run by done. simpl.
    rewrite calls_bind, identifier_table_supplied by done. simpl.
    rewrite calls_bind. unfold when at 1. rewrite Hout, copyfile_calls.
    apply elem_of_app. left. apply list_elem_of_here.
  - intros Hret Hjar Hpkg. subst o.
    destruct (OnStaleMd5_returned _ _ _ _ Hret) as (pre & post & r' & fs' & Hr' & ->).
    rewrite identifier_table_supplied in Hr' by done. simpl in Hr'.
    injection Hr' as <-. fold r.
    rewrite (proj2 (source_archive_run _ _ _ _ _)), Hjar.
    unfold target_package. rewrite Hpkg. simpl. rewrite Hpkg.
    eexists. apply elem_of_app. right. apply elem_of_app. left.
    apply list_elem_of_here.
Qed.

Lemma supplied_table_used_directly_witness :
  let o := _OnStaleMd5 (Sample.externals [] None None) Sample.options_prebuilt
             Sample.build Sample.files_prebuilt in
  calls_satisfy (uses_supplied_table "lib/R.txt") o
  ∧ CopyFile "lib/R.txt" "out/R.txt" ∈ calls o.
Proof.
  intros o.
  destruct (supplied_table_used_directly (Sample.externals [] None None)
              Sample.options_prebuilt Sample.build Sample.files_prebuilt eq_refl)
    as (H1 & _ & H2 & _).
  split; [exact H1|]. apply H2; [by left|reflexivity].
Defined.

Lemma identifier_table_calls_satisfy (P : Call → Prop) E options build fs :
  (∀ z d, P (ExtractDeps z d)) → (∀ c, P (CheckOutput c)) → (∀ p, P (Touch p)) →
  calls_satisfy P (identifier_table E options build fs).
Proof.
  intros H1 H2 H3. unfold identifier_table.
  destruct (Py.truthy (r_text_in options)); [constructor|].
  apply calls_satisfy_bind.
  { unfold calls_satisfy, extract_deps.
    destruct (run_ExtractDeps E _ _ fs). by repeat constructor. }
  intros deps _. apply calls_satisfy_bind.
  { unfold calls_satisfy, _GenerateRTxt, check_output.
    destruct (run_aapt E _ _); by repeat constructor. }
  intros [] _. apply calls_satisfy_bind; [constructor|].
  intros b _. apply calls_satisfy_bind; [|intros; constructor].
  unfold calls_satisfy, when. destruct (negb b); by repeat constructor.
Qed.

Lemma OnStaleMd5_calls_satisfy (P : Call → Prop) E options build fs :
  (∀ s, P (StderrWrite s)) →
  (∀ z d, P (ExtractDeps z d)) → (∀ c, P (CheckOutput c)) → (∀ p, P (Touch p)) →
  (∀ src dst, P (CopyFile src dst)) →
  (∀ r fs', calls_satisfy P (source_archive E options build r fs')) →
  (∀ m z, P (CreateResourceInfoFile m z)) → (∀ m z c, P (DoZip m z c)) →
  calls_satisfy P (_OnStaleMd5 E options build fs).
Proof.
  intros H1 H2 H3 H4 H5 H6 H7 H8. unfold _OnStaleMd5.
  apply calls_satisfy_bind; [by apply check_calls_satisfy|]. intros [] _.
  apply calls_satisfy_bind; [by apply identifier_table_calls_satisfy|].
  intros r _. apply calls_satisfy_bind.
  { unfold calls_satisfy, when.
    destruct (Py.truthy (r_text_out options)); [|constructor].
    rewrite copyfile_calls. by repeat constructor. }
  intros [] _. apply calls_satisfy_bind; [apply H6|].
  intros [] _. by apply resources_zip_calls_satisfy.
Qed.

Lemma emitted_source_packages_none cs :
  Forall (λ c, is_CreateRJavaFiles c = false) cs →
  emitted_source_packages cs = [].
Proof.
  unfold emitted_source_packages.
  induction 1 as [|c cs Hc _ IH]; [done|].
  rewrite bind_cons, IH. by destruct c.
Qed.

Lemma bind_split {A B} (m : M A) (k : A -> M B) fs :
  (m ≫= k) fs =
  match result (m fs) with
  | Returned a =>
      {| calls := calls (m fs) ++ calls (k a (files (m fs)));
         files := files (k a (files (m fs)));
         result := result (k a (files (m fs))) |}
  | Failed e => {| calls := calls (m fs); files := files (m fs); result := Failed e |}
  end.
Proof. reflexivity. Qed.

(** A run is what precedes the generated sources, then the source archive,
    then the resource archive. *)
Lemma OnStaleMd5_after_table_and_copy E options build fs :
  let o0 := table_and_copy E options build fs in
  calls (_OnStaleMd5 E options build fs) =
    calls o0 ++
    match result o0 with
    | Returned r =>
        calls (source_archive E options build r (files o0)) ++
        calls (when (Py.truthy (resource_zip_out options))
                 (_GenerateResourcesZip E (Py.the (resource_zip_out options))
                    (resource_dirs options) (strip_drawables options))
                 (files (source_archive E options build r (files o0))))
    | Failed _ => []
    end
  ∧ (∀ b, result (_OnStaleMd5 E options build fs) = Returned b →
          ∃ r, result o0 = Returned r).
Proof.
  intros o0. subst o0. unfold _OnStaleMd5, table_and_copy.
  rewrite ?bind_split.
  destruct (result (when (bool_decide (sources options ≠ [])) _ fs))
    as [[]|e]; simpl; [|rewrite app_nil_r; split; [done|by intros]].
  rewrite ?bind_split.
  destruct (result (identifier_table E options build _)) as [r|e]; simpl;
    [|rewrite app_nil_r; split; [done|by intros]].
  rewrite ?bind_split.
  destruct (result (when (Py.truthy (r_text_out options)) _ _)) as [[]|e];
    simpl; [|rewrite !app_nil_r; split; [done|by intros]].
  rewrite ?bind_split. simpl.
  rewrite (proj1 (source_archive_run _ _ _ _ _)). simpl.
  rewrite !app_nil_r, <-!app_assoc. split; [done|]. eauto.
Qed.

Lemma table_and_copy_calls_satisfy (P : Call → Prop) E options build fs :
  (∀ s, P (StderrWrite s)) →
  (∀ z d, P (ExtractDeps z d)) → (∀ c, P (CheckOutput c)) → (∀ p, P (Touch p)) →
  (∀ src dst, P (CopyFile src dst)) →
  calls_satisfy P (table_and_copy E options build fs).
Proof.
  intros H1 H2 H3 H4 H5. unfold table_and_copy.
  apply calls_satisfy_bind; [by apply check_calls_satisfy|]. intros [] _.
  apply calls_satisfy_bind; [by apply identifier_table_calls_satisfy|].
  intros r _. apply calls_satisfy_bind; [|intros; constructor].
  unfold calls_satisfy, when.
  destruct (Py.truthy (r_text_out options)); [|constructor].
  rewrite copyfile_calls. by repeat constructor.
Qed.

(** C1, as the script has it: when [--srcjar-out] is given and, with the
    files as they are when the source archive is reached, no target package
    can be determined (no [--custom-package], and no manifest or a manifest
    that yields none), the source generator is not called at all, so no
    source file is generated, for the target or for a dependency package; a
    run that returns has archived the (untouched) source directory into
    [--srcjar-out]. *)
Theorem no_package_no_generated_sources E options build fs :
  Py.truthy (srcjar_out options) = true →
  Py.truthy (target_package E options
               (files (table_and_copy E options build fs))) = false →
  let o := _OnStaleMd5 E options build fs in
  calls_satisfy (λ c, is_CreateRJavaFiles c = false) o
  ∧ emitted_source_packages (calls o) = []
  ∧ (result o = Returned tt →
     ZipDir (Py.the (srcjar_out options)) (srcjar_dir build) ∈ calls o).
Proof.
  intros Hjar Hpkg o. subst o.
  destruct (OnStaleMd5_after_table_and_copy E options build fs)
    as [Hcalls Hret].
  assert (Hsrc : ∀ r,
    calls (source_archive E options build r
             (files (table_and_copy E options build fs))) =
    (if negb (Py.truthy (custom_package options))
        && Py.truthy (android_manifest options)
     then [ParseManifest (Py.the (android_manifest options))] else [])
    ++ [ZipDir (Py.the (srcjar_out options)) (srcjar_dir build)]).
  { intros r. by rewrite (proj2 (source_archive_run _ _ _ _ _)), Hjar, Hpkg. }
  assert (Hsat : calls_satisfy (λ c, is_CreateRJavaFiles c = false)
                   (_OnStaleMd5 E options build fs)).
  { unfold calls_satisfy. rewrite Hcalls. apply Forall_app. split.
    - by apply table_and_copy_calls_satisfy.
    - destruct (result (table_and_copy E options build fs)) as [r|e];
        [|constructor].
      rewrite Hsrc. apply Forall_app. split.
      + case_match; by repeat constructor.
      + by apply resources_zip_calls_satisfy. }
  split; [done|split; [by apply emitted_source_packages_none|]].
  intros Hres. destruct (Hret tt Hres) as [r Hr].
  rewrite Hcalls, Hr, Hsrc.
  apply elem_of_app. right. apply elem_of_app. left.
  apply elem_of_app. right. apply list_elem_of_here.
Qed.

Lemma no_package_no_generated_sources_witness :
  let o := _OnStaleMd5 Sample3.externals_reading_manifest
             Sample3.options_manifest_no_package Sample.build
             Sample3.files_manifest_no_package in
  emitted_source_packages (calls o) = []
  ∧ ZipDir "out/lib.srcjar" "/tmp/ctx/java" ∈ calls o.
Proof.
  intros o.
  destruct (no_package_no_generated_sources Sample3.externals_reading_manifest
              Sample3.options_manifest_no_package Sample.build
              Sample3.files_manifest_no_package eq_refl)
    as (_ & H1 & H2).
  - by_evaluation.
  - split; [exact H1|]. apply H2. by_evaluation.
Defined.

(** In the same world, a manifest that declares a package gives the target
    one: whether a package can be determined depends on the files. *)
Example manifest_package_is_read :
  let E := Sample3.externals_reading_manifest in
  let options := Sample3.options_manifest_no_package in
  target_package E options Sample3.files_manifest_no_package = Some ""
  ∧ target_package E options {[ "java/AndroidManifest.xml" := "org.lib" ]}
    = Some "org.lib"
  ∧ calls (_OnStaleMd5 E options Sample.build Sample3.files_manifest_no_package)
    = [ ExtractDeps [] "/tmp/ctx/deps";
        CheckOutput (package_command E options [] "/tmp/ctx/gen");
        Touch "/tmp/ctx/gen/R.txt";
        CopyFile "/tmp/ctx/gen/R.txt" "out/R.txt";
        ParseManifest "java/AndroidManifest.xml";
        ZipDir "out/lib.srcjar" "/tmp/ctx/java" ].
Proof. intros E options. repeat split; by_evaluation. Qed.

(** The run of C1's scenario: two dependency packages are given, no source
    file is generated for either. *)
Lemma dependency_sources_not_emitted :
  let E := Sample.externals [] None None in
  let options := Sample.options_no_package in
  let o := _OnStaleMd5 E options Sample.build ∅ in
  custom_package options = None ∧ android_manifest options = None
  ∧ Py.truthy (srcjar_out options) = true
  ∧ extra_res_packages options = ["org.dep1"; "org.dep2"]
  ∧ result o = Returned tt
  ∧ calls o
    = [ ExtractDeps [] "/tmp/ctx/deps";
        CheckOutput (package_command E options [] "/tmp/ctx/gen");
        Touch "/tmp/ctx/gen/R.txt";
        ZipDir "out/lib.srcjar" "/tmp/ctx/java" ]
  ∧ ¬ (∀ package, package ∈ extra_res_packages options →
                  package ∈ emitted_source_packages (calls o)).
Proof.
  intros E options o.
  assert (Hcalls : emitted_source_packages (calls o) = []) by by_evaluation.
  repeat split; try by_evaluation.
  rewrite Hcalls. intros H. specialize (H "org.dep1" (list_elem_of_here _ _)).
  by apply elem_of_nil in H.
Qed.

(** ** The identifier table made by aapt *)

Lemma identifier_table_generated E options build fs dep_subdirs fs1 fs2 :
  Py.truthy (r_text_in options) = false →
  run_ExtractDeps E (dependencies_res_zips options) (deps_dir build) fs
    = (dep_subdirs, fs1) →
  run_aapt E (package_command E options dep_subdirs (gen_dir build)) fs1
    = Some fs2 →
  identifier_table E options build fs =
  {| calls :=
       [ ExtractDeps (dependencies_res_zips options) (deps_dir build);
         CheckOutput (package_command E options dep_subdirs (gen_dir build)) ]
       ++ match fs2 !! r_txt_path build with
          | Some _ => []
          | None => [Touch (r_txt_path build)]
          end;
     files := match fs2 !! r_txt_path build with
              | Some _ => fs2
              | None => <[r_txt_path build := ""]> fs2
              end;
     result := Returned (r_txt_path build) |}.
Proof.
  intros Hin Hdeps Haapt. unfold identifier_table. rewrite Hin.
  unfold mbind, M_bind, extract_deps, _GenerateRTxt, check_output, path_exists.
  rewrite Hdeps. simpl. rewrite Haapt. simpl.
  destruct (fs2 !! r_txt_path build) as [data|] eqn:Hfile.
  - rewrite bool_decide_true by eauto. simpl. by rewrite ?Hfile.
  - rewrite bool_decide_false by (by intros [? ?]). simpl. by rewrite ?Hfile.
Qed.

(** C6: when aapt succeeds without writing the identifier table, lines
    207-220 touch it: the table stage makes the calls [ExtractDeps],
    [CheckOutput], [Touch] and returns the expected path, at which there is
    now an empty file.  In the run of [_OnStaleMd5] these three calls come
    first when the completeness check lets it go on; the copy to
    [--r-text-out] is run on the files that hold the placeholder, is given
    its path, leaves it in place for the source generator that follows, and,
    when the operating system lets it through, writes the empty contents to
    [--r-text-out]; every copy and every call of the source generator in the
    run reads the table at that path. *)
Theorem empty_table_is_touched E options build fs dep_subdirs fs1 fs2 :
  Py.truthy (r_text_in options) = false →
  run_ExtractDeps E (dependencies_res_zips options) (deps_dir build) fs
    = (dep_subdirs, fs1) →
  run_aapt E (package_command E options dep_subdirs (gen_dir build)) fs1
    = Some fs2 →
  fs2 !! r_txt_path build = None →
  let r := r_txt_path build in
  let touched := <[r := ""]> fs2 in
  let table_calls :=
    [ ExtractDeps (dependencies_res_zips options) (deps_dir build);
      CheckOutput (package_command E options dep_subdirs (gen_dir build));
      Touch r ] in
  let copy :=
    when (Py.truthy (r_text_out options))
      (copyfile E r (Py.the (r_text_out options))) touched in
  let o := _OnStaleMd5 E options build fs in
  identifier_table E options build fs
    = {| calls := table_calls; files := touched; result := Returned r |}
  ∧ touched !! r = Some ""
  ∧ calls copy =
      (if Py.truthy (r_text_out options)
       then [CopyFile r (Py.the (r_text_out options))] else [])
  ∧ (result copy = Returned tt → is_Some (files copy !! r))
  ∧ (Py.truthy (r_text_out options) = true →
     copy_obstacle E r (Py.the (r_text_out options)) touched = None →
     result copy = Returned tt
     ∧ files copy !! Py.the (r_text_out options) = Some "")
  ∧ (check_passes E options →
     calls o =
       table_calls ++ calls copy ++
       match result copy with
       | Returned _ =>
           calls (source_archive E options build r (files copy)) ++
           calls (when (Py.truthy (resource_zip_out options))
                    (_GenerateResourcesZip E (Py.the (resource_zip_out options))
                       (resource_dirs options) (strip_drawables options))
                    (files (source_archive E options build r (files copy))))
       | Failed _ => []
       end)
  ∧ calls_satisfy (reads_table r) o.
Proof.
  intros Hin Hdeps Haapt Hnone r touched table_calls copy o.
  assert (Htable : identifier_table E options build fs
    = {| calls := table_calls; files := touched; result := Returned r |}).
  { rewrite (identifier_table_generated _ _ _ _ _ _ _ Hin Hdeps Haapt).
    subst r. by rewrite Hnone. }
  assert (Htouched : touched !! r = Some "") by apply lookup_insert_eq.
  split; [done|]. split; [done|]. split; [|split; [|split; [|split]]].
  - subst copy. unfold when.
    destruct (Py.truthy (r_text_out options)); [|done]. apply copyfile_calls.
  - subst copy. unfold when, copyfile.
    destruct (Py.truthy (r_text_out options));
      [|simpl; rewrite Htouched; eauto].
    rewrite Htouched.
    destruct (copy_obstacle E r _ touched); [done|]. simpl. intros _.
    destruct (decide (Py.the (r_text_out options) = r)) as [->|Hne].
    + rewrite lookup_insert_eq. eauto.
    + rewrite lookup_insert_ne by done. eauto.
  - intros Hout Hfree. subst copy. unfold when, copyfile.
    rewrite Hout, Htouched, Hfree. simpl. by rewrite lookup_insert_eq.
  - intros Hcheck. subst o. unfold _OnStaleMd5.
    rewrite bind_split, check_passes_run by done. simpl.
    rewrite bind_split, Htable. simpl.
    rewrite bind_split. fold copy.
    destruct (result copy) as [[]|e]; simpl; [|by rewrite app_nil_r].
    rewrite bind_split, (proj1 (source_archive_run _ _ _ _ _)). simpl.
    by rewrite <-?app_assoc.
  - subst o. unfold _OnStaleMd5.
    apply calls_satisfy_bind; [by apply check_calls_satisfy|]. intros [] _.
    rewrite check_run.
    apply calls_satisfy_bind.
    { rewrite Htable. by repeat constructor. }
    intros r' Hr'. rewrite Htable in Hr'. simpl in Hr'. injection Hr' as <-.
    apply calls_satisfy_bind.
    { unfold calls_satisfy, when.
      destruct (Py.truthy (r_text_out options)); [|constructor].
      rewrite copyfile_calls. by repeat constructor. }
    intros [] _. apply calls_satisfy_bind.
    { unfold calls_satisfy.
      rewrite (proj2 (source_archive_run _ _ _ _ _)).
      repeat (case_match; simpl); by repeat constructor. }
    intros [] _. by apply resources_zip_calls_satisfy.
Qed.

Lemma empty_table_is_touched_witness :
  let E := Sample.externals [] None None in
  let o := _OnStaleMd5 E Sample3.options_generated Sample.build ∅ in
  identifier_table E Sample3.options_generated Sample.build ∅
    = {| calls := [ ExtractDeps [] "/tmp/ctx/deps";
                    CheckOutput (package_command E Sample3.options_generated
                                   [] "/tmp/ctx/gen");
                    Touch "/tmp/ctx/gen/R.txt" ];
         files := {[ "/tmp/ctx/gen/R.txt" := "" ]};
         result := Returned "/tmp/ctx/gen/R.txt" |}
  ∧ calls o
    = [ ExtractDeps [] "/tmp/ctx/deps";
        CheckOutput (package_command E Sample3.options_generated
                       [] "/tmp/ctx/gen");
        Touch "/tmp/ctx/gen/R.txt";
        CopyFile "/tmp/ctx/gen/R.txt" "out/R.txt";
        CreateRJavaFiles "/tmp/ctx/java" "org.lib" "/tmp/ctx/gen/R.txt" [] []
          {| export_all_resources := true; export_all_styleables := true;
             generate_on_resources_loaded := false |} "out/lib.srcjar";
        ZipDir "out/lib.srcjar" "/tmp/ctx/java" ]
  ∧ calls_satisfy (reads_table "/tmp/ctx/gen/R.txt") o.
Proof.
  intros E o.
  destruct (empty_table_is_touched E Sample3.options_generated Sample.build ∅
              [] ∅ ∅ eq_refl eq_refl eq_refl (lookup_empty _))
    as (H1 & _ & _ & _ & _ & H2 & H3).
  split; [|split; [|exact H3]].
  - rewrite H1. by_evaluation.
  - subst o. rewrite (H2 (or_introl eq_refl)). by_evaluation.
Defined.

(** ** [--r-text-in] and the arguments of the gate *)

(** C2 does not hold of the script: no argument that [main] hands to the
    gate depends on [--r-text-in], so two runs that differ in nothing but the
    prebuilt table have the same input paths, input strings, output paths and
    dependency record and start from the same files, yet copy different
    tables to [--r-text-out]. *)
Theorem r_text_in_not_in_fingerprint :
  (∀ E options r, main E (with_r_text_in options r) = main E options)
  ∧ let E := Sample.externals [] None None in
    let options := Sample.options_prebuilt in
    let options' := with_r_text_in options (Some "other/R.txt") in
    main E options' = main E options
    ∧ files (_OnStaleMd5 E options Sample.build Sample.files_prebuilt)
        !! "out/R.txt" = Some "int id ok 0x7f010000"
    ∧ files (_OnStaleMd5 E options' Sample.build Sample.files_prebuilt)
        !! "out/R.txt" = Some "int id cancel 0x7f010001".
Proof.
  split; [done|]. intros E options options'.
  split; [done|]. split; by_evaluation.
Qed.

(** ** The completeness check inside the run *)

(** X9: when the declared list is not empty and a file is missing from it,
    the run is the failed check: nothing else is called. *)
Lemma OnStaleMd5_stops_on_missing_files E options build fs :
  sources options ≠ [] →
  missing_files E (sources options) (resource_dirs options) ≠ [] →
  _OnStaleMd5 E options build fs =
  _CheckAllFilesListed E (sources options) (resource_dirs options) fs
  ∧ exit_status (_OnStaleMd5 E options build fs) = 1.
Proof.
  intros Hs Hm.
  assert (Hfail : result (_CheckAllFilesListed E (sources options)
                            (resource_dirs options) fs) = Failed (SysExit 1)).
  { rewrite CheckAllFilesListed_run.
    by destruct (missing_files E (sources options) (resource_dirs options)). }
  assert (Heq : _OnStaleMd5 E options build fs =
                _CheckAllFilesListed E (sources options) (resource_dirs options) fs).
  { unfold _OnStaleMd5, when at 1. rewrite bool_decide_true by done.
    rewrite (bind_failed _ _ _ _ Hfail).
    rewrite <-Hfail. by destruct (_CheckAllFilesListed E _ _ fs). }
  split; [done|]. unfold exit_status. by rewrite Heq, Hfail.
Qed.

(** ** The helpers on concrete inputs *)

Example basename_of_path : Py.basename "chrome/android/java/res" = "res".
Proof. reflexivity. Qed.

Example basename_of_trailing_slash : Py.basename "java/res/" = "".
Proof. reflexivity. Qed.

Example join_empty_keep : Py.join "empty" ".keep" = "empty/.keep".
Proof. reflexivity. Qed.

Example endswith_empty_keep :
  is_empty_keep "res/empty/.keep" = true
  ∧ is_empty_keep "res/values/.keep" = false.
Proof. split; reflexivity. Qed.

Example startswith_tmp :
  Py.startswith "/tmp/gen/values/b.xml" "/tmp" = true
  ∧ Py.startswith "res/tmp/b.xml" "/tmp" = false.
Proof. split; reflexivity. Qed.

Example format_archive_path_of_ten :
  format_archive_path 10 "res" "values/strings.xml"
  = "10_res/values/strings.xml".
Proof. by_evaluation. Qed.

Example sorted_names :
  Py.sorted ["values/b.xml"; "empty/.keep"; "values/a.xml"]
  = ["empty/.keep"; "values/a.xml"; "values/b.xml"].
Proof. by_evaluation. Qed.

Example input_strings_of_library :
  input_strings (main (Sample.externals Sample.tree_before None None)
                      Sample.options_lib)
  = [ Py.None_; Py.Bool false; Py.Bool false;
      Py.Str "empty/.keep"; Py.Str "values/a.xml" ].
Proof. by_evaluation. Qed.

Example missing_file_is_named :
  let E := Sample.externals Sample.tree_before None None in
  _CheckAllFilesListed E ["res/empty/.keep"] ["res"] ∅
  = {| calls := [ StderrWrite missing_files_header;
                  StderrWrite ("res/values/a.xml" +:+ newline) ];
       files := ∅; result := Failed (SysExit 1) |}.
Proof. intros E. by_evaluation. Qed.

(** * Further properties of the script *)

(** ** More on the dictionaries of [_ZipResources] *)

(** X1: [files_to_zip] is built "with proper overriding": of the entries
    stored under one archive path, the last one is the one in the
    dictionary, whatever the walker yields. *)
Theorem files_to_zip_last_entry_wins E dirs pat l1 l2 k p :
  zip_entries E dirs pat = l1 ++ (k, p) :: l2 →
  k ∉ l2.*1 →
  (zip_dicts E dirs pat).1 !! k = Some p.
Proof.
  intros Hsplit Hlast. rewrite zip_dicts_spec, Hsplit. simpl.
  rewrite reverse_app, reverse_cons, <-app_assoc, list_to_map_app.
  rewrite lookup_union_r.
  - simpl. apply lookup_insert_eq.
  - apply not_elem_of_list_to_map_1.
    by rewrite fmap_reverse, elem_of_reverse.
Qed.

(** X2: whatever the walker yields, an entry of
    [files_to_zip_without_generated] has a source path that does not start
    with [/tmp], is one of the entries the loops met, and its archive path
    is a key of [files_to_zip]. *)
Theorem provenance_never_generated E dirs pat k p :
  (zip_dicts E dirs pat).2 !! k = Some p →
  Py.startswith p "/tmp" = false
  ∧ (k, p) ∈ zip_entries E dirs pat
  ∧ is_Some ((zip_dicts E dirs pat).1 !! k).
Proof.
  rewrite zip_dicts_spec. simpl. intros H.
  apply elem_of_list_to_map_2, elem_of_reverse, list_elem_of_filter in H
    as [Hsrc Hin].
  split; [done|split; [done|]].
  apply not_eq_None_Some. intros Hnone.
  apply not_elem_of_list_to_map_2 in Hnone.
  apply Hnone. rewrite fmap_reverse, elem_of_reverse.
  apply (list_elem_of_fmap_2 fst _ _ Hin).
Qed.

(** X3: "we want the original resource dirs in the .info file rather than
    the generated overridden path": when a checked-in file and then a file
    below [/tmp] are stored under one archive path, the archive dictionary
    holds the generated file and the provenance dictionary still holds the
    checked-in one. *)
Theorem provenance_can_go_stale index resource_dir dicts path generated archive_path :
  Py.startswith path "/tmp" = false →
  Py.startswith generated "/tmp" = true →
  let key := format_archive_path index (Py.basename resource_dir) archive_path in
  let dicts' := foldl (zip_entry index resource_dir) dicts
                  [(path, archive_path); (generated, archive_path)] in
  dicts'.1 !! key = Some generated ∧ dicts'.2 !! key = Some path.
Proof.
  intros Hp Hg key dicts'. subst dicts'. destruct dicts as [a w]. simpl.
  rewrite Hp, Hg. simpl. fold key.
  by rewrite !lookup_insert_eq.
Qed.

(** X4: when the walker names no file of a directory twice, no entry is
    lost: the archive dictionary has as many entries as files were found,
    the provenance dictionary as many as those not below [/tmp]. *)
Theorem archive_size_is_file_count E dirs pat :
  walker_names_once E pat →
  size (zip_dicts E dirs pat).1 = length (zip_entries E dirs pat)
  ∧ size (zip_dicts E dirs pat).2
    = length (filter from_sources (zip_entries E dirs pat)).
Proof.
  intros Hwalk. rewrite zip_dicts_spec. simpl.
  pose proof (NoDup_zip_entries E dirs pat Hwalk) as Hnd.
  split.
  - rewrite map_size_list_to_map, length_reverse; [done|].
    by rewrite fmap_reverse, reverse_Permutation.
  - rewrite map_size_list_to_map, length_reverse; [done|].
    rewrite fmap_reverse, reverse_Permutation.
    eapply sublist_NoDup; [exact Hnd|]. apply fmap_sublist, sublist_filter.
Qed.

Lemma zip_entries_nil E dirs pat :
  (∀ d, d ∈ dirs → IterResourceFilesInDirectories E [d] (Some pat) = []) →
  zip_entries E dirs pat = [].
Proof.
  intros H. destruct (zip_entries E dirs pat) as [|[k p] l] eqn:Heq; [done|].
  assert (Hin : (k, p) ∈ zip_entries E dirs pat) by (rewrite Heq; left).
  apply elem_of_zip_entries in Hin as (i & d & r & Hd & Hin & _).
  rewrite (H d) in Hin by (by eapply list_elem_of_lookup_2).
  by apply elem_of_nil in Hin.
Qed.

(** X5: when the walker finds nothing in any directory (or there is no
    directory), both dictionaries are empty, and [_ZipResources] still writes
    the info file and the archive, and returns. *)
Theorem no_files_empty_archive E dirs zip_path pat fs :
  (∀ d, d ∈ dirs → IterResourceFilesInDirectories E [d] (Some pat) = []) →
  zip_dicts E dirs pat = (∅, ∅)
  ∧ calls (_ZipResources E dirs zip_path pat fs) =
    [ CreateResourceInfoFile ∅ zip_path;
      DoZip ∅ zip_path (MULTIPLE_RES_MAGIC_STRING E) ]
  ∧ result (_ZipResources E dirs zip_path pat fs) = Returned tt.
Proof.
  intros H.
  assert (Heq : zip_dicts E dirs pat = (∅, ∅)).
  { rewrite zip_dicts_spec, zip_entries_nil by done. done. }
  split; [done|].
  destruct (ZipResources_run E dirs zip_path pat fs) as [Hr Hc].
  by rewrite Hc, Hr, Heq.
Qed.

(** ** More on the completeness check *)

(** X7: the check returns exactly when every file the walker finds is in
    the declared list; declared files that the walker does not find are of
    no consequence. *)
Theorem check_returns_iff_all_declared E resource_files resource_dirs fs :
  result (_CheckAllFilesListed E resource_files resource_dirs fs) = Returned tt
  ↔ ∀ p, p ∈ (IterResourceFilesInDirectories E resource_dirs None).*1 →
         p ∈ resource_files.
Proof.
  rewrite CheckAllFilesListed_run, missing_files_filter.
  destruct (filter _ _) as [|p l] eqn:Hf.
  - split; [|done]. intros _ p Hp.
    destruct (decide (p ∈ resource_files)) as [|Hn]; [done|].
    assert (Hin : p ∈ filter (λ p, p ∉ resource_files)
                    (IterResourceFilesInDirectories E resource_dirs None).*1)
      by (by apply list_elem_of_filter).
    rewrite Hf in Hin. by apply elem_of_nil in Hin.
  - split; [done|]. intros Hall.
    assert (Hin : p ∈ filter (λ p, p ∉ resource_files)
                    (IterResourceFilesInDirectories E resource_dirs None).*1)
      by (rewrite Hf; left).
    apply list_elem_of_filter in Hin as [Hn Hin]. by destruct Hn; apply Hall.
Qed.

(** X8: the declared list is read as a set: two lists with the same
    elements, in any order and with any repetitions, give the same run of
    the check. *)
Theorem check_reads_declared_as_set E resource_files resource_files' resource_dirs fs :
  (∀ p, p ∈ resource_files ↔ p ∈ resource_files') →
  _CheckAllFilesListed E resource_files resource_dirs fs
  = _CheckAllFilesListed E resource_files' resource_dirs fs.
Proof.
  intros Hsame. rewrite !CheckAllFilesListed_run, !missing_files_filter.
  assert (Heq : filter (λ p, p ∉ resource_files)
                  (IterResourceFilesInDirectories E resource_dirs None).*1
              = filter (λ p, p ∉ resource_files')
                  (IterResourceFilesInDirectories E resource_dirs None).*1).
  { apply list_filter_iff. intros p. by rewrite Hsame. }
  by rewrite Heq.
Qed.

(** ** What a run calls, and in which order *)

(** X11: when aapt exits with a non-zero status the run ends there: the
    only calls are the extraction of the dependencies and aapt itself; no
    placeholder is made, nothing is copied or archived. *)
Theorem aapt_failure_aborts E options build fs dep_subdirs fs1 :
  check_passes E options →
  Py.truthy (r_text_in options) = false →
  run_ExtractDeps E (dependencies_res_zips options) (deps_dir build) fs
    = (dep_subdirs, fs1) →
  run_aapt E (package_command E options dep_subdirs (gen_dir build)) fs1 = None →
  _OnStaleMd5 E options build fs =
  {| calls :=
       [ ExtractDeps (dependencies_res_zips options) (deps_dir build);
         CheckOutput (package_command E options dep_subdirs (gen_dir build)) ];
     files := fs1;
     result := Failed (Raised "CalledProcessError") |}.
Proof.
  intros Hcheck Hin Hdeps Haapt. unfold _OnStaleMd5.
  rewrite (bind_returned _ _ _ tt) by (by rewrite check_passes_run).
  rewrite check_passes_run by done. simpl.
  assert (Htable : identifier_table E options build fs =
    {| calls :=
         [ ExtractDeps (dependencies_res_zips options) (deps_dir build);
           CheckOutput (package_command E options dep_subdirs (gen_dir build)) ];
       files := fs1;
       result := Failed (Raised "CalledProcessError") |}).
  { unfold identifier_table. rewrite Hin.
    unfold mbind, M_bind, extract_deps, _GenerateRTxt, check_output.
    rewrite Hdeps. simpl. by rewrite Haapt. }
  rewrite (bind_failed _ _ _ (Raised "CalledProcessError"))
    by (by rewrite Htable).
  by rewrite Htable.
Qed.

Lemma source_archive_calls_satisfy (P : Call → Prop) E options build r fs :
  (Py.truthy (srcjar_out options) = true →
   Py.truthy (custom_package options) = false →
   Py.truthy (android_manifest options) = true →
   P (ParseManifest (Py.the (android_manifest options)))) →
  (Py.truthy (srcjar_out options) = true →
   Py.truthy (target_package E options fs) = true →
   P (CreateRJavaFiles (srcjar_dir build) (Py.the (target_package E options fs))
        r (extra_res_packages options) (extra_r_text_files options)
        {| export_all_resources := true; export_all_styleables := true;
           generate_on_resources_loaded := shared_resources options |}
        (Py.the (srcjar_out options)))) →
  (Py.truthy (srcjar_out options) = true →
   P (ZipDir (Py.the (srcjar_out options)) (srcjar_dir build))) →
  calls_satisfy P (source_archive E options build r fs).
Proof.
  intros H1 H2 H3. unfold calls_satisfy.
  rewrite (proj2 (source_archive_run _ _ _ _ _)).
  destruct (Py.truthy (srcjar_out options)); [|constructor].
  apply Forall_app. split; [|apply Forall_app; split].
  - destruct (Py.truthy (custom_package options));
      destruct (Py.truthy (android_manifest options)); simpl;
      repeat constructor; by apply H1.
  - destruct (Py.truthy (target_package E options fs));
      repeat constructor; by apply H2.
  - repeat constructor. by apply H3.
Qed.

Lemma OnStaleMd5_stagewise (P : Call → Prop) E options build fs :
  (∀ s, P (StderrWrite s)) →
  (∀ z d, P (ExtractDeps z d)) → (∀ c, P (CheckOutput c)) → (∀ p, P (Touch p)) →
  (Py.truthy (r_text_out options) = true →
   ∀ src, P (CopyFile src (Py.the (r_text_out options)))) →
  (∀ r fs', calls_satisfy P (source_archive E options build r fs')) →
  (Py.truthy (resource_zip_out options) = true →
   (∀ m, P (CreateResourceInfoFile m (Py.the (resource_zip_out options))))
   ∧ (∀ m c, P (DoZip m (Py.the (resource_zip_out options)) c))) →
  calls_satisfy P (_OnStaleMd5 E options build fs).
Proof.
  intros H1 H2 H3 H4 H5 H6 H7. unfold _OnStaleMd5.
  apply calls_satisfy_bind; [by apply check_calls_satisfy|]. intros [] _.
  apply calls_satisfy_bind; [by apply identifier_table_calls_satisfy|].
  intros r _. apply calls_satisfy_bind.
  { unfold calls_satisfy, when.
    destruct (Py.truthy (r_text_out options)); [|constructor].
    rewrite copyfile_calls. repeat constructor. by apply H5. }
  intros [] _. apply calls_satisfy_bind; [apply H6|].
  intros [] _. unfold calls_satisfy, when, _GenerateResourcesZip.
  destruct (Py.truthy (resource_zip_out options)); [|constructor].
  rewrite (proj2 (ZipResources_run _ _ _ _ _)).
  destruct (H7 eq_refl) as [Ha Hb]. by repeat constructor.
Qed.

(** X12: in every run, a copy goes to [--r-text-out] and is made only when
    it is given; the manifest is read, sources are generated and archived
    only when [--srcjar-out] is given, and into it; the info file and the
    resource archive are written only when [--resource-zip-out] is given,
    and at that path. *)
Theorem only_requested_outputs_written E options build fs :
  calls_satisfy (writes_requested_output options)
    (_OnStaleMd5 E options build fs).
Proof.
  apply OnStaleMd5_stagewise; try done.
  intros r fs'. by apply source_archive_calls_satisfy.
Qed.

(** X13: every call of the source generator, in every run, is on the
    build's source directory, with a non-empty package, the extra packages
    and tables of the options, all resources and all styleables exported, and
    [onResourcesLoaded] generated exactly when [--shared-resources] is
    set. *)
Theorem source_generator_called_with E options build fs :
  calls_satisfy (source_generator_arguments options build)
    (_OnStaleMd5 E options build fs).
Proof.
  apply OnStaleMd5_stagewise; try done.
  intros r fs'. apply source_archive_calls_satisfy.
  - done.
  - intros _ Hpkg. simpl. repeat split.
    intros Hempty. destruct (target_package E options fs') as [p|]; [|done].
    simpl in *. subst p. done.
  - done.
Qed.

(** X14: with [--custom-package] the manifest is never parsed, also when
    [--android-manifest] is given, and the source generator gets the custom
    package. *)
Theorem custom_package_overrides_manifest E options build fs :
  Py.truthy (custom_package options) = true →
  calls_satisfy (takes_custom_package options)
    (_OnStaleMd5 E options build fs).
Proof.
  intros Hc. apply OnStaleMd5_stagewise; try done.
  intros r fs'. apply source_archive_calls_satisfy.
  - intros _ Hno. congruence.
  - intros _ _. simpl. unfold target_package. by rewrite Hc.
  - done.
Qed.

(** X15: without [--custom-package] the only manifest parsed is
    [--android-manifest], and a package the source generator gets is one
    read from that manifest. *)
Theorem manifest_package_without_custom E options build fs :
  Py.truthy (custom_package options) = false →
  calls_satisfy (takes_manifest_package E options)
    (_OnStaleMd5 E options build fs).
Proof.
  intros Hc. apply OnStaleMd5_stagewise; try done.
  intros r fs'. apply source_archive_calls_satisfy.
  - done.
  - intros _ Hpkg. simpl. unfold target_package in *. rewrite Hc in *.
    simpl in *.
    destruct (Py.truthy (android_manifest options)); [|by rewrite Hc in Hpkg].
    exists fs'. by destruct (run_GetPackage E _ fs').
  - done.
Qed.

Lemma staged_nil {A} lo hi (o : Outcome A) : calls o = [] → staged lo hi o.
Proof. intros H. unfold staged. rewrite H. split; constructor. Qed.

Lemma staged_one {A} lo hi (o : Outcome A) c :
  calls o = [c] → lo ≤ stage c ≤ hi → staged lo hi o.
Proof.
  intros H Hc. unfold staged. rewrite H.
  split; repeat constructor; lia.
Qed.

Lemma staged_bind {A B} lo mid hi (m : M A) (k : A -> M B) fs :
  lo ≤ S mid ≤ S hi →
  staged lo mid (m fs) →
  (∀ a, result (m fs) = Returned a → staged (S mid) hi (k a (files (m fs)))) →
  staged lo hi ((m ≫= k) fs).
Proof.
  intros Hmid [Hs1 Hb1] Hk. unfold staged. rewrite calls_bind.
  destruct (result (m fs)) as [a|e].
  - destruct (Hk a eq_refl) as [Hs2 Hb2]. split.
    + apply StronglySorted_app. split; [|done].
      intros c1 c2 H1 H2. left.
      rewrite Forall_forall in Hb1, Hb2.
      specialize (Hb1 c1 H1). specialize (Hb2 c2 H2). lia.
    + apply Forall_app. split.
      * eapply Forall_impl; [exact Hb1|]. simpl. intros c ?. lia.
      * eapply Forall_impl; [exact Hb2|]. simpl. intros c ?. lia.
  - rewrite app_nil_r. split; [done|].
    eapply Forall_impl; [exact Hb1|]. simpl. intros c Hc. lia.
Qed.

Lemma staged_stderr {A} (o : Outcome A) :
  Forall (λ c, stage c = 0) (calls o) → staged 0 0 o.
Proof.
  intros H. split.
  - induction H as [|c l Hc Hl IH]; constructor; [done|].
    eapply Forall_impl; [exact Hl|]. simpl. intros c' Hc'. by right.
  - eapply Forall_impl; [exact H|]. simpl. intros c Hc. lia.
Qed.

Lemma check_staged E options fs :
  staged 0 0
    (when (bool_decide (sources options ≠ []))
       (_CheckAllFilesListed E (sources options) (resource_dirs options)) fs).
Proof.
  apply staged_stderr. apply (check_calls_satisfy (λ c, stage c = 0)). done.
Qed.

Lemma identifier_table_staged E options build fs :
  staged 1 3 (identifier_table E options build fs).
Proof.
  unfold identifier_table.
  destruct (Py.truthy (r_text_in options)); [by apply staged_nil|].
  apply (staged_bind 1 1 3); [lia| |].
  { unfold extract_deps. destruct (run_ExtractDeps E _ _ fs).
    eapply staged_one; [done|simpl; lia]. }
  intros deps _. apply (staged_bind 2 2 3); [lia| |].
  { unfold _GenerateRTxt, check_output.
    destruct (run_aapt E _ _); (eapply staged_one; [done|simpl; lia]). }
  intros [] _. apply (staged_bind 3 2 3); [lia|by apply staged_nil|].
  intros b _. apply (staged_bind 3 3 3); [lia| |intros; by apply staged_nil].
  unfold when. destruct (negb b); [|by apply staged_nil].
  eapply staged_one; [done|simpl; lia].
Qed.

Lemma source_archive_staged E options build r fs :
  staged 5 7 (source_archive E options build r fs).
Proof.
  unfold staged. rewrite (proj2 (source_archive_run _ _ _ _ _)).
  destruct (Py.truthy (srcjar_out options)); [|split; constructor].
  destruct (negb (Py.truthy (custom_package options))
            && Py.truthy (android_manifest options));
    destruct (Py.truthy (target_package E options fs)); simpl;
    (split; [repeat constructor; left; simpl; lia
            |repeat constructor; simpl; lia]).
Qed.

(** X16: the calls of every run are in the order of the script: lines on
    stderr; then extraction, aapt, placeholder; then the copy of the table;
    then manifest, source generator, source archive; then info file and
    resource archive; each of these at most once. *)
Theorem calls_follow_the_stages E options build fs :
  StronglySorted precedes (calls (_OnStaleMd5 E options build fs)).
Proof.
  cut (staged 0 9 (_OnStaleMd5 E options build fs)); [by intros [? _]|].
  unfold _OnStaleMd5.
  apply (staged_bind 0 0 9); [lia|apply check_staged|]. intros [] _.
  apply (staged_bind 1 3 9); [lia|apply identifier_table_staged|]. intros r _.
  apply (staged_bind 4 4 9); [lia| |].
  { unfold when. destruct (Py.truthy (r_text_out options));
      [|by apply staged_nil].
    eapply staged_one; [apply copyfile_calls|simpl; lia]. }
  intros [] _.
  apply (staged_bind 5 7 9); [lia|apply source_archive_staged|]. intros [] _.
  unfold when, _GenerateResourcesZip.
  destruct (Py.truthy (resource_zip_out options)); [|by apply staged_nil].
  unfold staged. rewrite (proj2 (ZipResources_run _ _ _ _ _)).
  split; [repeat constructor; left; simpl; lia|repeat constructor; simpl; lia].
Qed.

(** ** A supplied identifier table *)

(** X17: a run that is given a table and asked only for [--r-text-out]
    makes one call, the copy, and, when the operating system lets the copy
    through, leaves the files as they were but for [--r-text-out], which has
    the contents of the supplied table. *)
Theorem supplied_table_is_copied E options build fs data :
  check_passes E options →
  Py.truthy (r_text_in options) = true →
  Py.truthy (r_text_out options) = true →
  fs !! Py.the (r_text_in options) = Some data →
  copy_obstacle E (Py.the (r_text_in options)) (Py.the (r_text_out options)) fs
    = None →
  Py.truthy (srcjar_out options) = false →
  Py.truthy (resource_zip_out options) = false →
  _OnStaleMd5 E options build fs =
  {| calls := [CopyFile (Py.the (r_text_in options)) (Py.the (r_text_out options))];
     files := <[Py.the (r_text_out options) := data]> fs;
     result := Returned tt |}.
Proof.
  intros Hcheck Hin Hout Hdata Hfree Hjar Hzip. unfold _OnStaleMd5.
  rewrite (bind_returned _ _ _ tt) by (by rewrite check_passes_run).
  rewrite check_passes_run by done. simpl.
  rewrite (bind_returned _ _ _ (Py.the (r_text_in options)))
    by (by rewrite identifier_table_supplied).
  rewrite identifier_table_supplied by done. simpl.
  assert (Hcopy :
    when (Py.truthy (r_text_out options))
      (copyfile E (Py.the (r_text_in options)) (Py.the (r_text_out options))) fs
    = {| calls := [CopyFile (Py.the (r_text_in options))
                            (Py.the (r_text_out options))];
         files := <[Py.the (r_text_out options) := data]> fs;
         result := Returned tt |}).
  { unfold when, copyfile. by rewrite Hout, Hdata, Hfree. }
  rewrite (bind_returned _ _ _ tt) by (by rewrite Hcopy).
  rewrite Hcopy. simpl.
  assert (Hsrc : ∀ r fs', source_archive E options build r fs'
                 = {| calls := []; files := fs'; result := Returned tt |}).
  { intros r fs'. unfold source_archive, when. by rewrite Hjar. }
  rewrite (bind_returned _ _ _ tt) by (by rewrite Hsrc).
  rewrite Hsrc. simpl. unfold when. by rewrite Hzip.
Qed.


(** ** More on the arguments of the gate *)

(** X21: the input strings do not depend on the order in which the resource
    files are found: file trees with the same relative names, in any order,
    give the same input strings. *)
Theorem input_strings_ignore_walk_order E E' options :
  resource_names E options ≡ₚ resource_names E' options →
  input_strings (main E options) = input_strings (main E' options).
Proof.
  intros HP. rewrite !main_spec. simpl. f_equal. f_equal.
  apply (Sorted_unique String.le); [apply sorted_Sorted..|].
  by rewrite !sorted_Permutation.
Qed.

(** X22: the dependency record lists exactly the files found in the
    resource directories that do not end with [empty/.keep]. *)
Theorem depfile_deps_are_resource_files E options f :
  f ∈ depfile_deps (main E options)
  ↔ (∃ d, d ∈ resource_dirs options ∧ f ∈ FindInDirectory E d "*")
    ∧ is_empty_keep f = false.
Proof.
  rewrite main_spec. simpl. rewrite list_elem_of_filter, list_elem_of_fmap.
  unfold resource_files. split.
  - intros [Hk ([d f'] & -> & Hin)]. split; [|done]. exists d.
    apply list_elem_of_bind in Hin as (d' & Hin & Hd).
    apply list_elem_of_bind in Hin as (f'' & Hin & Hf).
    apply list_elem_of_singleton in Hin as [= -> ->]. done.
  - intros [(d & Hd & Hf) Hk]. split; [done|]. exists (d, f). split; [done|].
    apply list_elem_of_bind. exists d. split; [|done].
    apply list_elem_of_bind. exists f. split; [|done]. by left.
Qed.

Lemma keep_truthy_cons o l :
  Py.keep_truthy (o :: l) =
  if Py.truthy o then Py.the o :: Py.keep_truthy l else Py.keep_truthy l.
Proof.
  unfold Py.keep_truthy. simpl. destruct o as [s|]; simpl; [|done].
  by case_bool_decide.
Qed.

Lemma keep_truthy_spec l :
  Py.keep_truthy l = Py.the <$> filter (λ o, Py.truthy o = true) l.
Proof.
  induction l as [|o l IH]; [done|].
  rewrite keep_truthy_cons, filter_cons, IH.
  destruct (Py.truthy o); by simpl.
Qed.

Lemma main_output_paths E options :
  output_paths (main E options)
  = Py.keep_truthy
      [resource_zip_out options; r_text_out options; srcjar_out options].
Proof. by rewrite main_spec. Qed.

(** X23: the output paths given to the gate are the requested ones among
    [--resource-zip-out], [--r-text-out], [--srcjar-out], in this order
    ("must match order specified in GN"), and none of them is empty. *)
Theorem output_paths_keep_declared_order E options :
  let declared :=
    [resource_zip_out options; r_text_out options; srcjar_out options] in
  output_paths (main E options)
    = Py.the <$> filter (λ o, Py.truthy o = true) declared
  ∧ output_paths (main E options) `sublist_of` (Py.the <$> declared)
  ∧ Forall (λ p, p ≠ "") (output_paths (main E options)).
Proof.
  intros declared. rewrite main_output_paths. fold declared.
  rewrite keep_truthy_spec. split; [done|split].
  - apply fmap_sublist, sublist_filter.
  - apply Forall_fmap, Forall_forall. intros o Ho.
    apply list_elem_of_filter in Ho as [Ho _].
    destruct o as [s|]; [|done]. simpl in *. by case_bool_decide.
Qed.

(** ** More on the command line *)

(** X19: the resource archive is filtered with the very pattern aapt gets
    after [--ignore-assets]: [AAPT_IGNORE_PATTERN], with [:*drawable*]
    appended under [--strip-drawables] in both. *)
Theorem same_ignore_pattern_for_aapt_and_zip E options dep_subdirs gen_dir zip_path fs :
  let ignore_pattern :=
    if strip_drawables options
    then AAPT_IGNORE_PATTERN E +:+ ":*drawable*" else AAPT_IGNORE_PATTERN E in
  calls (_GenerateResourcesZip E zip_path (resource_dirs options)
           (strip_drawables options) fs) =
    [ CreateResourceInfoFile
        (zip_dicts E (resource_dirs options) ignore_pattern).2 zip_path;
      DoZip (zip_dicts E (resource_dirs options) ignore_pattern).1 zip_path
        (MULTIPLE_RES_MAGIC_STRING E) ]
  ∧ ∃ before,
      package_command E options dep_subdirs gen_dir =
      before ++ ["--ignore-assets"; ignore_pattern]
             ++ (d ← dep_subdirs; ["-S"; d])
             ++ (d ← resource_dirs options; ["-S"; d]).
Proof.
  intros ignore_pattern. split.
  - unfold _GenerateResourcesZip. fold ignore_pattern.
    apply (proj2 (ZipResources_run _ _ _ _ _)).
  - rewrite package_command_spec. unfold command_head. fold ignore_pattern.
    exists ([ aapt_path options; "package"; "-m"; "-M";
              EMPTY_ANDROID_MANIFEST_PATH E; "--no-crunch";
              "--auto-add-overlay"; "--no-version-vectors" ]
            ++ (j ← include_resources options; ["-I"; j])
            ++ [ "--output-text-symbols"; gen_dir; "-J"; gen_dir ]).
    by rewrite <-!app_assoc.
Qed.

(** X20: every [--include-resources] entry is on the aapt command line as
    [-I entry], right after the eight leading arguments, and the command has
    no argument beyond the fourteen fixed ones and one pair for each include
    archive, dependency directory and resource directory. *)
Theorem include_archives_on_command_line E options dep_subdirs gen_dir i j :
  include_resources options !! i = Some j →
  let cmd := package_command E options dep_subdirs gen_dir in
  cmd !! (8 + 2 * i) = Some "-I" ∧ cmd !! (9 + 2 * i) = Some j
  ∧ length cmd = 14 + 2 * (length (include_resources options)
                           + length dep_subdirs
                           + length (resource_dirs options)).
Proof.
  intros Hi cmd. subst cmd. rewrite package_command_spec. unfold command_head.
  destruct (flag_args_lookup "-I" _ _ _ Hi) as [H1 H2].
  pose proof (flag_args_length "-I" (include_resources options)) as Hlen.
  apply lookup_lt_Some in Hi as Hlt.
  split; [|split].
  - rewrite lookup_app_l by (rewrite !length_app, Hlen; simpl; lia).
    rewrite lookup_app_r by (simpl; lia).
    rewrite lookup_app_l by (simpl; lia).
    by replace (8 + 2 * i - length _) with (2 * i) by (simpl; lia).
  - rewrite lookup_app_l by (rewrite !length_app, Hlen; simpl; lia).
    rewrite lookup_app_r by (simpl; lia).
    rewrite lookup_app_l by (simpl; lia).
    by replace (9 + 2 * i - length _) with (S (2 * i)) by (simpl; lia).
  - rewrite !length_app, !flag_args_length. simpl. lia.
Qed.

(** ** Reading the list of sources *)

Lemma string_app_cons c s t : String c s +:+ t = String c (s +:+ t).
Proof. reflexivity. Qed.

Lemma string_app_assoc (s t u : string) : (s +:+ t) +:+ u = s +:+ t +:+ u.
Proof.
  induction s as [|c s IH]; [done|]. by rewrite !string_app_cons, IH.
Qed.

Lemma readlines_line entry rest :
  lacks (ascii_of_nat 10) entry →
  readlines (entry +:+ newline +:+ rest) = (entry +:+ newline) :: readlines rest.
Proof.
  induction entry as [|c entry IH]; intros Hl.
  - reflexivity.
  - destruct Hl as [Hc Hl]. rewrite !string_app_cons.
    change (readlines (String c (entry +:+ newline +:+ rest))) with
      (if Ascii.eqb c (ascii_of_nat 10)
       then String c "" :: readlines (entry +:+ newline +:+ rest)
       else match readlines (entry +:+ newline +:+ rest) with
            | [] => [String c ""]
            | line :: lines => String c line :: lines
            end).
    rewrite (proj2 (Ascii.eqb_neq _ _)) by done. by rewrite IH.
Qed.

Lemma rstrip_newline s : rstrip (s +:+ newline) = rstrip s.
Proof.
  induction s as [|c s IH]; [done|].
  rewrite string_app_cons. simpl. by rewrite IH.
Qed.

Lemma lstrip_app_newline s :
  rstrip (lstrip (s +:+ newline)) = rstrip (lstrip s).
Proof.
  induction s as [|c s IH]; [done|].
  rewrite string_app_cons.
  change (lstrip (String c (s +:+ newline))) with
    (if Ascii.is_space c then lstrip (s +:+ newline)
     else String c (s +:+ newline)).
  change (lstrip (String c s)) with
    (if Ascii.is_space c then lstrip s else String c s).
  destruct (Ascii.is_space c); [done|].
  rewrite <-string_app_cons. apply rstrip_newline.
Qed.

Lemma strip_newline s : strip (s +:+ newline) = strip s.
Proof. apply lstrip_app_newline. Qed.

Lemma ParseArgs_sources_one_per_line entries :
  Forall (lacks (ascii_of_nat 10)) entries →
  _ParseArgs_sources (one_per_line entries) = strip <$> entries.
Proof.
  unfold _ParseArgs_sources.
  induction 1 as [|entry entries Hl _ IH]; [done|].
  simpl. rewrite readlines_line by done. rewrite !fmap_cons.
  by rewrite IH, strip_newline.
Qed.

(** X24: a sources file written one entry per line is read back as the
    list it was written from, when no entry has a newline inside or white
    space at either end. *)
Theorem sources_read_back entries :
  Forall (λ entry, lacks (ascii_of_nat 10) entry ∧ strip entry = entry) entries →
  _ParseArgs_sources (one_per_line entries) = entries.
Proof.
  intros H. rewrite ParseArgs_sources_one_per_line.
  - induction H as [|entry entries [_ Hs] _ IH]; [done|].
    by rewrite fmap_cons, Hs, IH.
  - eapply Forall_impl; [exact H|]. by intros ? [? _].
Qed.

Lemma readlines_unterminated s :
  lacks (ascii_of_nat 10) s → s ≠ "" → readlines s = [s].
Proof.
  induction s as [|c s IH]; [done|]. intros [Hc Hl] _.
  change (readlines (String c s)) with
    (if Ascii.eqb c (ascii_of_nat 10) then String c "" :: readlines s
     else match readlines s with
          | [] => [String c ""]
          | line :: lines => String c line :: lines
          end).
  rewrite (proj2 (Ascii.eqb_neq _ _)) by done.
  destruct s as [|c' s]; [done|]. by rewrite IH.
Qed.

(** X25: a last line without a newline is an entry like the others; all
    entries are stripped of surrounding white space. *)
Theorem sources_last_line_without_newline entries last :
  Forall (lacks (ascii_of_nat 10)) entries →
  lacks (ascii_of_nat 10) last → last ≠ "" →
  _ParseArgs_sources (one_per_line entries +:+ last)
  = strip <$> (entries ++ [last]).
Proof.
  intros H Hl Hne. unfold _ParseArgs_sources.
  induction H as [|entry entries He _ IH].
  - change (one_per_line [] +:+ last) with last.
    by rewrite readlines_unterminated.
  - change (one_per_line (entry :: entries))
      with (entry +:+ newline +:+ one_per_line entries).
    rewrite <-string_app_assoc, string_app_assoc, string_app_assoc.
    rewrite readlines_line by done.
    rewrite fmap_cons, IH. simpl. by rewrite strip_newline.
Qed.

Lemma lacks_lstrip c s : lacks c s → lacks c (lstrip s).
Proof.
  induction s as [|c' s IH]; [done|]. intros [Hc Hl].
  change (lstrip (String c' s)) with
    (if Ascii.is_space c' then lstrip s else String c' s).
  destruct (Ascii.is_space c'); [by apply IH|done].
Qed.

Lemma lacks_rstrip c s : lacks c s → lacks c (rstrip s).
Proof.
  induction s as [|c' s IH]; [done|]. intros [Hc Hl]. simpl.
  specialize (IH Hl). destruct (rstrip s); [|done].
  by destruct (Ascii.is_space c').
Qed.

Lemma rstrip_idemp s : rstrip (rstrip s) = rstrip s.
Proof.
  induction s as [|c s IH]; [done|]. simpl.
  destruct (rstrip s) as [|a t] eqn:Ht.
  - destruct (Ascii.is_space c) eqn:Hc; [done|]. simpl. by rewrite Hc.
  - change (rstrip (String c (String a t))) with
      (match rstrip (String a t) with
       | "" => if Ascii.is_space c then "" else String c ""
       | r' => String c r'
       end).
    by rewrite IH.
Qed.

(** The first character, if any, is not white space. *)
Lemma lstrip_fixed s :
  match s with "" => True | String c _ => Ascii.is_space c = false end →
  lstrip s = s.
Proof. destruct s as [|c s]; [done|]. simpl. by intros ->. Qed.

Lemma lstrip_head s :
  match lstrip s with "" => True | String c _ => Ascii.is_space c = false end.
Proof.
  induction s as [|c s IH]; [done|].
  change (lstrip (String c s)) with
    (if Ascii.is_space c then lstrip s else String c s).
  by destruct (Ascii.is_space c) eqn:Hc.
Qed.

Lemma rstrip_head s :
  match s with "" => True | String c _ => Ascii.is_space c = false end →
  match rstrip s with "" => True | String c _ => Ascii.is_space c = false end.
Proof.
  destruct s as [|c s]; [done|]. simpl. intros Hc.
  destruct (rstrip s); by rewrite ?Hc.
Qed.

Lemma strip_idemp s : strip (strip s) = strip s.
Proof.
  unfold strip.
  rewrite (lstrip_fixed (rstrip (lstrip s))) by apply rstrip_head, lstrip_head.
  apply rstrip_idemp.
Qed.

Lemma readlines_lines s :
  Forall (λ line, ∃ body, lacks (ascii_of_nat 10) body
                          ∧ (line = body +:+ newline ∨ line = body))
         (readlines s).
Proof.
  induction s as [|c s IH]; [constructor|].
  change (readlines (String c s)) with
    (if Ascii.eqb c (ascii_of_nat 10) then String c "" :: readlines s
     else match readlines s with
          | [] => [String c ""]
          | line :: lines => String c line :: lines
          end).
  destruct (Ascii.eqb c (ascii_of_nat 10)) eqn:Hc.
  - apply Ascii.eqb_eq in Hc as ->. constructor; [|done].
    exists "". split; [done|by left].
  - apply Ascii.eqb_neq in Hc.
    destruct (readlines s) as [|line lines].
    + constructor; [|done]. exists (String c ""). split; [done|by right].
    + apply Forall_cons in IH as [(body & Hb & Hline) IH].
      constructor; [|done]. exists (String c body). split; [done|].
      destruct Hline as [->| ->]; [by left|by right].
Qed.

(** X26: whatever the file holds, an entry of [options.sources] has no
    newline and no white space at either end. *)
Theorem sources_are_stripped contents entry :
  entry ∈ _ParseArgs_sources contents →
  strip entry = entry ∧ lacks (ascii_of_nat 10) entry.
Proof.
  unfold _ParseArgs_sources. intros Hin.
  apply list_elem_of_fmap in Hin as (line & -> & Hin).
  split; [apply strip_idemp|].
  pose proof (readlines_lines contents) as Hlines.
  rewrite Forall_forall in Hlines.
  destruct (Hlines line Hin) as (body & Hb & [->| ->]).
  - rewrite strip_newline. by apply lacks_rstrip, lacks_lstrip.
  - by apply lacks_rstrip, lacks_lstrip.
Qed.

(** ** The top-level directory of an archive path *)

Lemma lacks_app c s t : lacks c (s +:+ t) ↔ lacks c s ∧ lacks c t.
Proof.
  induction s as [|c' s IH]; [by intuition|].
  rewrite string_app_cons. simpl. rewrite IH. tauto.
Qed.

Lemma lacks_rev_app c s t :
  lacks c s → lacks c t → lacks c (String.rev_app s t).
Proof.
  revert t. induction s as [|c' s IH]; intros t; [done|].
  intros [Hc Hs] Ht. simpl. by apply IH.
Qed.

Lemma lacks_basename_from cur p :
  lacks "/" cur → lacks "/" (Py.basename_from cur p).
Proof.
  revert cur. induction p as [|c p IH]; intros cur Hcur; simpl.
  - by apply lacks_rev_app.
  - destruct (Ascii.eqb c "/") eqn:Hc.
    + by apply IH.
    + apply IH. split; [|done]. by apply Ascii.eqb_neq.
Qed.

Lemma pretty_N_go_lacks_slash x s :
  lacks "/" s → lacks "/" (pretty_N_go x s).
Proof.
  revert s. induction (N.lt_wf_0 x) as [x _ IH]; intros s Hs.
  destruct (decide (x = 0)%N) as [->|Hx].
  - by rewrite pretty_N_go_0.
  - rewrite pretty_N_go_step by lia. apply IH.
    + apply N.div_lt; lia.
    + split; [|done]. unfold pretty_N_char. by repeat case_match.
Qed.

Lemma format_int_lacks_slash n : lacks "/" (Py.format_int n).
Proof.
  unfold Py.format_int, pretty, pretty_nat, pretty, pretty_N.
  case_decide; [by repeat split|]. by apply pretty_N_go_lacks_slash.
Qed.

(** X6: all archive paths of one resource directory lie below one
    top-level directory of the archive, ['{index}_{basename}'], whose name
    has no slash. *)
Theorem archive_top_level_directory index resource_dir :
  let top := Py.format_int index +:+ "_" +:+ Py.basename resource_dir in
  lacks "/" top
  ∧ ∀ archive_path,
      format_archive_path index (Py.basename resource_dir) archive_path
      = top +:+ "/" +:+ archive_path.
Proof.
  intros top. split.
  - subst top. apply lacks_app. split; [apply format_int_lacks_slash|].
    apply lacks_app. split; [by repeat split|].
    by apply lacks_basename_from.
  - intros archive_path. subst top. unfold format_archive_path.
    by rewrite !string_app_assoc.
Qed.

(** ** Instances *)

Lemma files_to_zip_last_entry_wins_witness :
  (zip_dicts (Sample.externals Sample2.tree_override None None) ["res"]
     _AAPT_IGNORE_PATTERN).1 !! "0_res/values/a.xml"
  = Some "/tmp/o/values/a.xml".
Proof.
  apply (files_to_zip_last_entry_wins
           (Sample.externals Sample2.tree_override None None) ["res"]
           _AAPT_IGNORE_PATTERN
           [("0_res/values/a.xml", "res/values/a.xml")] []).
  - by_evaluation.
  - apply not_elem_of_nil.
Defined.

Lemma provenance_never_generated_witness :
  let E := Sample.externals Sample.tree_gen None None in
  Py.startswith "res/values/a.xml" "/tmp" = false
  ∧ ("0_res/values/a.xml", "res/values/a.xml")
      ∈ zip_entries E ["res"] _AAPT_IGNORE_PATTERN
  ∧ is_Some ((zip_dicts E ["res"] _AAPT_IGNORE_PATTERN).1
               !! "0_res/values/a.xml").
Proof.
  intros E.
  apply (provenance_never_generated E ["res"] _AAPT_IGNORE_PATTERN).
  by_evaluation.
Defined.

Lemma provenance_can_go_stale_witness :
  let dicts := foldl (zip_entry 0 "res") (∅, ∅)
                 [ ("res/values/a.xml", "values/a.xml");
                   ("/tmp/o/values/a.xml", "values/a.xml") ] in
  dicts.1 !! format_archive_path 0 (Py.basename "res") "values/a.xml"
    = Some "/tmp/o/values/a.xml"
  ∧ dicts.2 !! format_archive_path 0 (Py.basename "res") "values/a.xml"
    = Some "res/values/a.xml".
Proof.
  exact (provenance_can_go_stale 0 "res" (∅, ∅) "res/values/a.xml"
           "/tmp/o/values/a.xml" "values/a.xml" eq_refl eq_refl).
Defined.

Lemma archive_size_is_file_count_witness :
  let E := Sample.externals Sample.tree_gen None None in
  size (zip_dicts E ["res"] _AAPT_IGNORE_PATTERN).1
    = length (zip_entries E ["res"] _AAPT_IGNORE_PATTERN)
  ∧ size (zip_dicts E ["res"] _AAPT_IGNORE_PATTERN).2
    = length (filter from_sources (zip_entries E ["res"] _AAPT_IGNORE_PATTERN)).
Proof.
  intros E. apply archive_size_is_file_count.
  apply sample_walker_names_once. sample_tree_names_once.
Defined.

Lemma no_files_empty_archive_witness :
  zip_dicts (Sample.externals [] None None) ["res"; "res2"] _AAPT_IGNORE_PATTERN
  = (∅, ∅).
Proof.
  apply (no_files_empty_archive (Sample.externals [] None None)
           ["res"; "res2"] "out.zip" _AAPT_IGNORE_PATTERN ∅).
  intros d _. reflexivity.
Defined.

Lemma check_reads_declared_as_set_witness :
  let E := Sample.externals Sample.tree_before None None in
  _CheckAllFilesListed E ["res/values/a.xml"; "res/empty/.keep"; "res/values/a.xml"]
    ["res"] ∅
  = _CheckAllFilesListed E ["res/empty/.keep"; "res/values/a.xml"] ["res"] ∅.
Proof.
  intros E. apply check_reads_declared_as_set.
  intros p. rewrite !elem_of_cons. tauto.
Defined.

Lemma aapt_failure_aborts_witness :
  result (_OnStaleMd5 Sample2.externals_failing_aapt Sample.options_lib
            Sample.build ∅)
  = Failed (Raised "CalledProcessError").
Proof.
  rewrite (aapt_failure_aborts Sample2.externals_failing_aapt
             Sample.options_lib Sample.build ∅
             ["/tmp/ctx/deps/0"; "/tmp/ctx/deps/1"] ∅
             (or_introl eq_refl) eq_refl eq_refl eq_refl).
  reflexivity.
Defined.

Lemma custom_package_overrides_manifest_witness :
  calls_satisfy (takes_custom_package Sample.options_prebuilt)
    (_OnStaleMd5 (Sample.externals [] (Some "org.manifest") None)
       Sample.options_prebuilt Sample.build Sample.files_prebuilt).
Proof.
  exact (custom_package_overrides_manifest
           (Sample.externals [] (Some "org.manifest") None)
           Sample.options_prebuilt Sample.build Sample.files_prebuilt eq_refl).
Defined.

Lemma manifest_package_without_custom_witness :
  calls_satisfy
    (takes_manifest_package (Sample.externals [] (Some "org.manifest") None)
       Sample2.options_manifest)
    (_OnStaleMd5 (Sample.externals [] (Some "org.manifest") None)
       Sample2.options_manifest Sample.build ∅).
Proof.
  exact (manifest_package_without_custom
           (Sample.externals [] (Some "org.manifest") None)
           Sample2.options_manifest Sample.build ∅ eq_refl).
Defined.

Lemma supplied_table_is_copied_witness :
  files (_OnStaleMd5 (Sample.externals [] None None) Sample2.options_copy_only
           Sample.build Sample.files_prebuilt)
  = <["out/R.txt" := "int id ok 0x7f010000"]> Sample.files_prebuilt.
Proof.
  rewrite (supplied_table_is_copied (Sample.externals [] None None)
             Sample2.options_copy_only Sample.build Sample.files_prebuilt
             "int id ok 0x7f010000").
  - reflexivity.
  - by left.
  - reflexivity.
  - reflexivity.
  - by_evaluation.
  - reflexivity.
  - reflexivity.
  - reflexivity.
Defined.


Lemma input_strings_ignore_walk_order_witness :
  input_strings (main (Sample.externals Sample.tree_before None None)
                      Sample.options_lib)
  = input_strings (main (Sample.externals Sample2.tree_before_shuffled None None)
                        Sample.options_lib).
Proof.
  apply input_strings_ignore_walk_order.
  change (["values/a.xml"; "empty/.keep"] ≡ₚ ["empty/.keep"; "values/a.xml"]).
  apply perm_swap.
Defined.

Lemma include_archives_on_command_line_witness :
  let cmd := package_command (Sample.externals [] None None) Sample.options_lib
               [] "/tmp/ctx/gen" in
  cmd !! 8 = Some "-I" ∧ cmd !! 9 = Some "sdk/android.jar" ∧ length cmd = 18.
Proof.
  exact (include_archives_on_command_line (Sample.externals [] None None)
           Sample.options_lib [] "/tmp/ctx/gen" 0 "sdk/android.jar" eq_refl).
Defined.

Ltac entries_are_clean :=
  repeat (apply Forall_cons; split;
          [simpl; repeat split; (discriminate || reflexivity)|]);
  by apply Forall_nil.

Lemma sources_read_back_witness :
  _ParseArgs_sources
    (one_per_line ["res/values/strings.xml"; "res/layout/main view.xml"])
  = ["res/values/strings.xml"; "res/layout/main view.xml"].
Proof. apply sources_read_back. entries_are_clean. Defined.

Lemma sources_last_line_without_newline_witness :
  _ParseArgs_sources (one_per_line [" res/values/strings.xml "] +:+ "res/a.xml")
  = ["res/values/strings.xml"; "res/a.xml"].
Proof.
  apply (sources_last_line_without_newline [" res/values/strings.xml "]
           "res/a.xml").
  - entries_are_clean.
  - simpl. repeat split; discriminate.
  - discriminate.
Defined.

Lemma sources_are_stripped_witness :
  strip "res/a.xml" = "res/a.xml" ∧ lacks (ascii_of_nat 10) "res/a.xml".
Proof.
  apply (sources_are_stripped
           ("  res/a.xml " +:+ newline +:+ newline +:+ "res/b.xml")).
  vm_compute. apply list_elem_of_here.
Defined.

Lemma OnStaleMd5_stops_on_missing_files_witness :
  let E := Sample.externals Sample.tree_before None None in
  _OnStaleMd5 E Sample2.options_undeclared Sample.build ∅
  = _CheckAllFilesListed E ["res/empty/.keep"] ["res"] ∅
  ∧ exit_status (_OnStaleMd5 E Sample2.options_undeclared Sample.build ∅) = 1.
Proof.
  intros E.
  apply (OnStaleMd5_stops_on_missing_files E Sample2.options_undeclared
           Sample.build ∅).
  - discriminate.
  - vm_compute. discriminate.
Defined.

(** The list of sources of a small file. *)
Example sources_of_file :
  _ParseArgs_sources
    ("res/values/strings.xml" +:+ newline +:+ "  res/layout/main.xml "
     +:+ newline +:+ newline +:+ "res/raw/last")
  = ["res/values/strings.xml"; "res/layout/main.xml"; ""; "res/raw/last"].
Proof. by_evaluation. Qed.
